(** * Disk health monitor: a shallow embedding of [normalizer.py]

    The program loads SMART snapshots (JSON documents), classifies each as
    ATA or NVMe, extracts a few health indicators and renders them on the
    console, as CSV and as HTML.  The embedding follows the class
    [DiskHealthMonitor] method by method; Python values are the values
    [json.load] can produce, Python exceptions are the [Raise] results of
    an error monad, and the outside world (directory listing, files, log,
    console, clock) is an explicit state. *)

From Stdlib Require Import String Ascii List ZArith Lia Bool.
From Stdlib Require Import DecimalString Sorted.
From Stdlib Require Import DecimalPos DecimalZ.
Import ListNotations.

Set Warnings "-register-all".
Local Open Scope list_scope.
Local Open Scope string_scope.

(** ** Python values and exceptions *)

(** The values [json.load] returns.  A [dict] keeps its insertion order,
    so it is an association list (its keys are distinct in a loaded
    document; lookup takes the first binding).  A string is a sequence of
    code points below 256.  A float is carried by the text [str] prints
    for it; nothing in the program computes with floats. *)
Inductive json : Type :=
| JNull
| JBool (b : bool)
| JInt (n : Z)
| JFloat (text : string)
| JStr (s : string)
| JList (items : list json)
| JDict (fields : list (string * json)).

Inductive exn : Type :=
| KeyError (key : string)
| TypeError
| AttributeError
| OSError (path : string).

Inductive result (A : Type) : Type :=
| Ok (a : A)
| Raise (e : exn).

Arguments Ok {A} a.
Arguments Raise {A} e.

Definition bind {A B : Type} (r : result A) (k : A -> result B) : result B :=
  match r with
  | Ok a => k a
  | Raise e => Raise e
  end.

Notation "x <- r ;; k" := (bind r (fun x => k))
  (at level 61, r at next level, right associativity).

Definition NA : json := JStr "N/A".

Fixpoint dict_lookup (key : string) (fields : list (string * json)) : option json :=
  match fields with
  | [] => None
  | (k, v) :: rest => if String.eqb k key then Some v else dict_lookup key rest
  end.

(** [a == b] where [b] is a string literal. *)
Definition eq_str (a : json) (b : string) : bool :=
  match a with
  | JStr s => String.eqb s b
  | _ => false
  end.

Fixpoint is_substring (p s : string) : bool :=
  String.prefix p s ||
  match s with
  | EmptyString => false
  | String _ s' => is_substring p s'
  end.

(** [key in data] *)
Definition py_contains (key : string) (data : json) : result bool :=
  match data with
  | JDict fields =>
      Ok (match dict_lookup key fields with Some _ => true | None => false end)
  | JList items => Ok (existsb (fun x => eq_str x key) items)
  | JStr s => Ok (is_substring key s)
  | _ => Raise TypeError
  end.

(** [data[key]] with a string key *)
Definition py_getitem (data : json) (key : string) : result json :=
  match data with
  | JDict fields =>
      match dict_lookup key fields with
      | Some v => Ok v
      | None => Raise (KeyError key)
      end
  | _ => Raise TypeError
  end.

(** [data.get(key, default)] *)
Definition py_get (data : json) (key : string) (default : json) : result json :=
  match data with
  | JDict fields =>
      Ok (match dict_lookup key fields with Some v => v | None => default end)
  | _ => Raise AttributeError
  end.

Fixpoint chars (s : string) : list json :=
  match s with
  | EmptyString => []
  | String c s' => JStr (String c EmptyString) :: chars s'
  end.

(** The elements a [for] loop over [data] visits. *)
Definition py_iter (data : json) : result (list json) :=
  match data with
  | JList items => Ok items
  | JDict fields => Ok (map (fun kv => JStr (fst kv)) fields)
  | JStr s => Ok (chars s)
  | _ => Raise TypeError
  end.

(** ** Classifier and extractor *)

(** The loop of [extract_ata_data] over the attribute table. *)
Fixpoint scan_reallocated (table : list json) : result json :=
  match table with
  | [] => Ok NA
  | sect :: rest =>
      name <- py_getitem sect "name" ;;
      if eq_str name "Reallocated_Sector_Ct"
      then py_getitem sect "value"
      else scan_reallocated rest
  end.

Definition extract_ata_data (data : json) (index : Z) : result (list json) :=
  power_on_time <- py_getitem data "power_on_time" ;;
  p_on_h <- py_get power_on_time "hours" NA ;;
  temperature <- py_getitem data "temperature" ;;
  current_temp <- py_get temperature "current" NA ;;
  attrs <- py_getitem data "ata_smart_attributes" ;;
  table <- py_getitem attrs "table" ;;
  sects <- py_iter table ;;
  reallocated_sectors <- scan_reallocated sects ;;
  Ok [JInt index; JStr "ATA"; p_on_h; current_temp; reallocated_sectors].

Definition extract_nvme_data (data : json) (index : Z) : result (list json) :=
  health_info <- py_getitem data "nvme_smart_health_information" ;;
  p_on_h <- py_get health_info "power_on_hours" NA ;;
  current_temp <- py_get health_info "temperature" NA ;;
  Ok [JInt index; JStr "NVMe"; p_on_h; current_temp; NA].

(** ** Aggregator *)

Record analyzed : Type := mk_analyzed {
  ata_data : list (list json);
  nvme_data : list (list json);
  all_data : list (list json)
}.

(** The loop of [analyze_data]: [idx] is the counter of
    [enumerate(json_data, start=1)], [acc] the three lists so far;
    [disk_data[1:]] is [tl disk_data]. *)
Fixpoint analyze_loop (idx : Z) (json_data : list json) (acc : analyzed)
  : result analyzed :=
  match json_data with
  | [] => Ok acc
  | data :: rest =>
      is_ata <- py_contains "ata_smart_attributes" data ;;
      if is_ata then
        disk_data <- extract_ata_data data idx ;;
        analyze_loop (idx + 1) rest
          (mk_analyzed (ata_data acc ++ [tl disk_data])%list (nvme_data acc)
                       (all_data acc ++ [disk_data])%list)
      else
        is_nvme <- py_contains "nvme_smart_health_information" data ;;
        if is_nvme then
          disk_data <- extract_nvme_data data idx ;;
          analyze_loop (idx + 1) rest
            (mk_analyzed (ata_data acc) (nvme_data acc ++ [tl disk_data])%list
                         (all_data acc ++ [disk_data])%list)
        else analyze_loop (idx + 1) rest acc
  end.

Definition analyze_data (json_data : list json) : result analyzed :=
  analyze_loop 1 json_data (mk_analyzed [] [] []).

(** ** Text conversions: [str], [repr] and [int] *)

Definition nl : string := String (ascii_of_nat 10) EmptyString.
Definition cr : string := String (ascii_of_nat 13) EmptyString.
Definition dq : string := String (ascii_of_nat 34) EmptyString.
Definition sq : string := String (ascii_of_nat 39) EmptyString.
Definition backslash : string := String (ascii_of_nat 92) EmptyString.

(** [str(n)] for an integer: decimal digits, [-] for a negative one. *)
Definition str_of_Z (n : Z) : string := NilZero.string_of_int (Z.to_int n).

Definition hex_digit (n : nat) : ascii :=
  if Nat.ltb n 10 then ascii_of_nat (48 + n) else ascii_of_nat (87 + n).

Definition hex_escape (c : ascii) : string :=
  let n := nat_of_ascii c in
  backslash ++ "x" ++
  String (hex_digit (Nat.div n 16)) (String (hex_digit (Nat.modulo n 16)) EmptyString).

(** The code points below 256 that [str.isprintable] accepts. *)
Definition printable (c : ascii) : bool :=
  let n := nat_of_ascii c in
  (Nat.leb 32 n && Nat.ltb n 127) ||
  (Nat.leb 161 n && negb (Nat.eqb n 173)).

Fixpoint mem_char (c : ascii) (s : string) : bool :=
  match s with
  | EmptyString => false
  | String d s' => Ascii.eqb c d || mem_char c s'
  end.

Fixpoint repr_chars (quote : ascii) (s : string) : string :=
  match s with
  | EmptyString => EmptyString
  | String c s' =>
      (if Ascii.eqb c quote || Ascii.eqb c (ascii_of_nat 92)
       then backslash ++ String c EmptyString
       else if Ascii.eqb c (ascii_of_nat 9) then backslash ++ "t"
       else if Ascii.eqb c (ascii_of_nat 10) then backslash ++ "n"
       else if Ascii.eqb c (ascii_of_nat 13) then backslash ++ "r"
       else if printable c then String c EmptyString
       else hex_escape c)
      ++ repr_chars quote s'
  end.

(** [repr(s)] for a string: single quotes, unless the string holds a
    single quote and no double quote. *)
Definition repr_str (s : string) : string :=
  let quote :=
    if mem_char (ascii_of_nat 39) s && negb (mem_char (ascii_of_nat 34) s)
    then ascii_of_nat 34 else ascii_of_nat 39 in
  String quote (repr_chars quote s) ++ String quote EmptyString.

Fixpoint join (sep : string) (parts : list string) : string :=
  match parts with
  | [] => EmptyString
  | [p] => p
  | p :: rest => p ++ sep ++ join sep rest
  end.

Fixpoint py_repr (v : json) : string :=
  match v with
  | JNull => "None"
  | JBool true => "True"
  | JBool false => "False"
  | JInt n => str_of_Z n
  | JFloat text => text
  | JStr s => repr_str s
  | JList items => "[" ++ join ", " (map py_repr items) ++ "]"
  | JDict fields =>
      "{" ++ join ", "
               (map (fun kv => match kv with
                               | (k, x) => repr_str k ++ ": " ++ py_repr x
                               end) fields) ++ "}"
  end.

(** [str(v)] *)
Definition py_str (v : json) : string :=
  match v with
  | JStr s => s
  | _ => py_repr v
  end.

(** The code points below 256 that [int] strips as white space. *)
Definition is_space (c : ascii) : bool :=
  let n := nat_of_ascii c in
  (Nat.leb 9 n && Nat.leb n 13) || Nat.eqb n 32 ||
  Nat.eqb n 133 || Nat.eqb n 160.

Definition is_digit (c : ascii) : bool :=
  let n := nat_of_ascii c in Nat.leb 48 n && Nat.leb n 57.

Fixpoint lstrip (s : list ascii) : list ascii :=
  match s with
  | c :: rest => if is_space c then lstrip rest else s
  | [] => []
  end.

Definition strip (s : list ascii) : list ascii := rev (lstrip (rev (lstrip s))).

(** Decimal digits, single underscores allowed between two digits. *)
Fixpoint digits_value (acc : Z) (after_digit : bool) (s : list ascii) : option Z :=
  match s with
  | [] => if after_digit then Some acc else None
  | c :: rest =>
      if is_digit c
      then digits_value (10 * acc + (Z.of_nat (nat_of_ascii c) - 48)) true rest
      else if Ascii.eqb c "_" && after_digit then digits_value acc false rest
      else None
  end.

(** [int(s)] in base 10; [None] stands for [ValueError].  (The optional
    limit on the number of digits of recent interpreters is not
    modelled.) *)
Definition py_int (s : string) : option Z :=
  match strip (list_ascii_of_string s) with
  | c :: rest =>
      if Ascii.eqb c "-" then option_map Z.opp (digits_value 0 false rest)
      else if Ascii.eqb c "+" then digits_value 0 false rest
      else digits_value 0 false (c :: rest)
  | [] => None
  end.

(** ** HTML presenter: the table generator *)

Definition td (cell_str : string) : string := "<td>" ++ cell_str ++ "</td>".

Definition td_class (class cell_str : string) : string :=
  "<td class=" ++ dq ++ class ++ dq ++ ">" ++ cell_str ++ "</td>".

(** [i < len(headers) and headers[i] == name] *)
Definition header_is (headers : list string) (i : nat) (name : string) : bool :=
  match nth_error headers i with
  | Some h => String.eqb h name
  | None => false
  end.

(** The markup one cell adds to the table ([i < len(headers)] holds when
    the loop gets here): the [if]/[elif] chain of the inner loop. *)
Definition render_cell (headers : list string) (i : nat) (cell : json) : string :=
  let cell_str := py_str cell in
  if Nat.eqb i 3 && header_is headers i "Reallocated Sectors"
     && negb (String.eqb cell_str "N/A") && negb (String.eqb cell_str "0")
  then
    match py_int cell_str with
    | Some n => if (n >? 0)%Z then td_class "warning" cell_str else td cell_str
    | None => td cell_str
    end
  else if Nat.eqb i 1 && header_is headers i "Power-on Hours"
          && negb (String.eqb cell_str "N/A")
  then
    match py_int cell_str with
    | Some n => if (n >? 30000)%Z then td_class "warning" cell_str else td cell_str
    | None => td cell_str
    end
  else if Nat.eqb i 2 && header_is headers i "Temperature"
          && negb (String.eqb cell_str "N/A")
  then
    match py_int cell_str with
    | Some n => if (n >? 50)%Z then td_class "danger" cell_str else td cell_str
    | None => td cell_str
    end
  else td cell_str.

(** The inner loop over [enumerate(row)], from index [i] on. *)
Fixpoint render_cells (headers : list string) (i : nat) (row : list json) : string :=
  match row with
  | [] => EmptyString
  | cell :: rest =>
      (if Nat.leb (length headers) i then EmptyString
       else render_cell headers i cell)
      ++ render_cells headers (S i) rest
  end.

Definition render_row (headers : list string) (row : list json) : string :=
  "<tr>" ++ render_cells headers 0 row ++ "</tr>" ++ nl.

Definition _generate_html_table (data : list (list json)) (headers : list string)
  : string :=
  "<table>" ++ nl ++ "<tr>"
  ++ join EmptyString (map (fun header => "<th>" ++ header ++ "</th>") headers)
  ++ "</tr>" ++ nl
  ++ join EmptyString (map (render_row headers) data)
  ++ "</table>".

(** ** The outside world *)

(** What the program sees of its environment and what it leaves there.
    [json_file path] is the outcome of opening [path] and running
    [json.load] on it: the document, or the text of the exception.  The
    log keeps the messages sent to [logging.error] (the handler set up
    by [setup_logging] adds the time and the level to each, and creates
    the log file; neither is modelled); a console item is one [print]
    call; [open_w path] is the outcome of [open(path, "w")], which
    fails when the path cannot be written (a directory, a missing parent,
    no permission); [written] lists the files opened for writing, with
    their contents. *)
Inductive out : Type :=
| Line (text : string)
| Table (rows : list (list json)) (headers : list string).

Record world : Type := mk_world {
  path_exists : string -> bool;
  listdir : string -> result (list string);
  json_file : string -> string + json;
  open_w : string -> result unit;
  now : string;
  error_log : list string;
  stdout : list out;
  written : list (string * string)
}.

Definition io (A : Type) : Type := world -> result A * world.

Definition ret {A : Type} (a : A) : io A := fun w => (Ok a, w).

Definition bind_io {A B : Type} (m : io A) (k : A -> io B) : io B :=
  fun w => match m w with
           | (Ok a, w') => k a w'
           | (Raise e, w') => (Raise e, w')
           end.

Definition lift {A : Type} (r : result A) : io A := fun w => (r, w).

Declare Scope io_scope.
Delimit Scope io_scope with io.
Notation "x <- m ;; k" := (bind_io m (fun x => k))
  (at level 61, m at next level, right associativity) : io_scope.
Notation "m ;; k" := (bind_io m (fun _ => k))
  (at level 61, right associativity) : io_scope.

Definition print (o : out) : io unit :=
  fun w => (Ok tt, mk_world (path_exists w) (listdir w) (json_file w) (open_w w) (now w)
                            (error_log w) (stdout w ++ [o])%list (written w)).

Definition logging_error (msg : string) : io unit :=
  fun w => (Ok tt, mk_world (path_exists w) (listdir w) (json_file w) (open_w w) (now w)
                            (error_log w ++ [msg])%list (stdout w) (written w)).

(** [open(path, "w")] followed by the writes that make up [content]; the
    exception of a failing [open] is not caught. *)
Definition write_file (path content : string) : io unit :=
  fun w =>
    match open_w w path with
    | Ok _ =>
        (Ok tt, mk_world (path_exists w) (listdir w) (json_file w) (open_w w) (now w)
                         (error_log w) (stdout w) (written w ++ [(path, content)])%list)
    | Raise e => (Raise e, w)
    end.

(** ** Loader *)

Record DiskHealthMonitor : Type := mk_monitor {
  json_dir : string;
  output_file : string;
  log_file : string
}.

Fixpoint endswith (s suffix : string) : bool :=
  String.eqb s suffix ||
  match s with
  | EmptyString => false
  | String _ s' => endswith s' suffix
  end.

(** [os.path.join(a, b)] with [/] as separator. *)
Definition path_join (a b : string) : string :=
  if String.prefix "/" b then b
  else if String.eqb a EmptyString || endswith a "/" then a ++ b
  else a ++ "/" ++ b.

(** The loop of [load_json_data] over the directory listing. *)
Fixpoint load_files (dir : string) (names : list string) (json_data : list json)
  : io (list json) :=
  match names with
  | [] => ret json_data
  | filename :: rest =>
      if endswith filename ".json" then
        let file_path := path_join dir filename in
        fun w =>
          match json_file w file_path with
          | inr doc => load_files dir rest (json_data ++ [doc])%list w
          | inl err =>
              (logging_error ("Error reading JSON file " ++ file_path ++ ": " ++ err) ;;
               load_files dir rest json_data)%io w
          end
      else load_files dir rest json_data
  end.

Definition load_json_data (self : DiskHealthMonitor) : io (list json) :=
  fun w =>
    if negb (path_exists w (json_dir self)) then
      (logging_error ("Directory " ++ json_dir self ++ " not found.") ;;
       ret [])%io w
    else
      (names <- lift (listdir w (json_dir self)) ;;
       load_files (json_dir self) names [])%io w.

(** ** Console presenter *)

Definition ata_headers : list string :=
  ["Type"; "Power-on Hours"; "Temperature"; "Reallocated Sectors"].

Definition nvme_headers : list string :=
  ["Type"; "Power-on Hours"; "Temperature"].

Definition display_report (analyzed_data : analyzed) : io unit :=
  (print (Line (nl ++ "### ATA DEVICES ###")) ;;
   match ata_data analyzed_data with
   | _ :: _ => print (Table (ata_data analyzed_data) ata_headers)
   | [] => print (Line "No ATA devices found.")
   end ;;
   print (Line (nl ++ "### NVMe DEVICES ###")) ;;
   match nvme_data analyzed_data with
   | _ :: _ => print (Table (nvme_data analyzed_data) nvme_headers)
   | [] => print (Line "No NVMe devices found.")
   end)%io.

(** The header row [tabulate] prints over a table: when there are fewer
    headers than columns, the headers name the last columns and the first
    ones get an empty header.  The number of columns is that of the first
    row. *)
Definition tabulate_headers (rows : list (list json)) (headers : list string)
  : list string :=
  match headers, rows with
  | _ :: _, first :: _ =>
      (repeat EmptyString (length first - length headers) ++ headers)%list
  | _, _ => headers
  end.

(** ** CSV presenter *)

(** [csv.writer] in its default dialect: comma, double quote, minimal
    quoting with doubled quotes, lines ended by CR LF. *)

(** The text a field is written from: a string as it is, [None] as the
    empty text, anything else through [str]. *)
Definition csv_field (cell : json) : string :=
  match cell with
  | JStr s => s
  | JNull => EmptyString
  | _ => py_str cell
  end.

Definition is_cr (c : ascii) : bool := Ascii.eqb c (ascii_of_nat 13).
Definition is_lf (c : ascii) : bool := Ascii.eqb c (ascii_of_nat 10).
Definition is_quote (c : ascii) : bool := Ascii.eqb c (ascii_of_nat 34).
Definition is_comma (c : ascii) : bool := Ascii.eqb c ",".

(** The delimiter, the quote character and the characters of the line
    terminator: a field holding one of them is quoted. *)
Definition csv_special (c : ascii) : bool :=
  is_comma c || is_quote c || is_cr c || is_lf c.

Fixpoint needs_quotes (s : string) : bool :=
  match s with
  | EmptyString => false
  | String c s' => csv_special c || needs_quotes s'
  end.

Fixpoint double_quotes (s : string) : string :=
  match s with
  | EmptyString => EmptyString
  | String c s' =>
      if is_quote c
      then String c (String c (double_quotes s'))
      else String c (double_quotes s')
  end.

Definition csv_quote (s : string) : string :=
  if needs_quotes s then dq ++ double_quotes s ++ dq else s.

(** [writer.writerow(row)]: the line added to the file, from the texts
    of the fields.  A record whose text would be empty (one empty field)
    is written as two quotes. *)
Definition write_record (texts : list string) : string :=
  let body := join "," (map csv_quote texts) in
  (match texts with
   | _ :: _ => if String.eqb body EmptyString then dq ++ dq else body
   | [] => body
   end) ++ cr ++ nl.

Definition writerow (row : list json) : string :=
  write_record (map csv_field row).

Definition csv_header : list json :=
  [JStr "# Device"; JStr "Type"; JStr "Power-on Hours"; JStr "Temperature";
   JStr "Reallocated Sectors"].

Definition csv_content (rows : list (list json)) : string :=
  writerow csv_header ++ join EmptyString (map writerow rows).

Definition save_report (self : DiskHealthMonitor) (analyzed_data : analyzed)
  : io unit :=
  (write_file (output_file self) (csv_content (all_data analyzed_data)) ;;
   print (Line ("Report saved to " ++ output_file self ++ "!")))%io.

(** Reading the file back: [csv.reader] in the same dialect, over the text
    of a file opened with [newline=''].  A record ends at CR, LF or CR LF
    outside quotes; the states are those of the reader's automaton. *)
Inductive rstate : Type :=
| START_RECORD
| AFTER_CR
| START_FIELD
| IN_FIELD
| IN_QUOTED_FIELD
| QUOTE_IN_QUOTED_FIELD.

Record reader : Type := mk_reader {
  state : rstate;
  field : string;
  fields : list string
}.

Definition add_char (field : string) (c : ascii) : string :=
  field ++ String c EmptyString.

Definition end_of_record (c : ascii) : rstate :=
  if is_cr c then AFTER_CR else START_RECORD.

(** One character: the record completed by it, if any, and the next
    state of the reader. *)
Definition step (r : reader) (c : ascii) : option (list string) * reader :=
  let start_field (fields : list string) :=
    if is_cr c || is_lf c then
      (Some (fields ++ [EmptyString])%list, mk_reader (end_of_record c) EmptyString [])
    else if is_quote c then (None, mk_reader IN_QUOTED_FIELD EmptyString fields)
    else if is_comma c then
      (None, mk_reader START_FIELD EmptyString (fields ++ [EmptyString])%list)
    else (None, mk_reader IN_FIELD (String c EmptyString) fields) in
  let start_record :=
    if is_cr c || is_lf c then (Some [], mk_reader (end_of_record c) EmptyString [])
    else start_field [] in
  match state r with
  | START_RECORD => start_record
  | AFTER_CR =>
      if is_lf c then (None, mk_reader START_RECORD EmptyString []) else start_record
  | START_FIELD => start_field (fields r)
  | IN_FIELD =>
      if is_cr c || is_lf c then
        (Some (fields r ++ [field r])%list, mk_reader (end_of_record c) EmptyString [])
      else if is_comma c then
        (None, mk_reader START_FIELD EmptyString (fields r ++ [field r])%list)
      else (None, mk_reader IN_FIELD (add_char (field r) c) (fields r))
  | IN_QUOTED_FIELD =>
      if is_quote c then (None, mk_reader QUOTE_IN_QUOTED_FIELD (field r) (fields r))
      else (None, mk_reader IN_QUOTED_FIELD (add_char (field r) c) (fields r))
  | QUOTE_IN_QUOTED_FIELD =>
      if is_quote c then
        (None, mk_reader IN_QUOTED_FIELD (add_char (field r) c) (fields r))
      else if is_comma c then
        (None, mk_reader START_FIELD EmptyString (fields r ++ [field r])%list)
      else if is_cr c || is_lf c then
        (Some (fields r ++ [field r])%list, mk_reader (end_of_record c) EmptyString [])
      else (None, mk_reader IN_FIELD (add_char (field r) c) (fields r))
  end.

(** The end of the input closes a record that is under way. *)
Definition finish (r : reader) : list (list string) :=
  match state r with
  | START_RECORD | AFTER_CR => []
  | START_FIELD => [(fields r ++ [EmptyString])%list]
  | IN_FIELD | IN_QUOTED_FIELD | QUOTE_IN_QUOTED_FIELD =>
      [(fields r ++ [field r])%list]
  end.

Fixpoint read_from (r : reader) (input : string) : list (list string) :=
  match input with
  | EmptyString => finish r
  | String c rest =>
      match step r c with
      | (Some record, r') => record :: read_from r' rest
      | (None, r') => read_from r' rest
      end
  end.

Definition csv_read (input : string) : list (list string) :=
  read_from (mk_reader START_RECORD EmptyString []) input.

(** ** HTML presenter: the document *)

Definition html_content (timestamp : string) (analyzed_data : analyzed) : string :=
  join nl
    [ "<!DOCTYPE html>";
      "<html lang=" ++ dq ++ "en" ++ dq ++ ">";
      "<head>";
      "    <meta charset=" ++ dq ++ "UTF-8" ++ dq ++ ">";
      "    <meta name=" ++ dq ++ "viewport" ++ dq ++ " content=" ++ dq
        ++ "width=device-width, initial-scale=1.0" ++ dq ++ ">";
      "    <title>Disk Status Report</title>";
      "    <style>";
      "        body { font-family: Arial, sans-serif; margin: 20px; }";
      "        h1, h2 { color: #333; }";
      "        table { border-collapse: collapse; width: 100%; margin-bottom: 20px; }";
      "        th, td { border: 1px solid #ddd; padding: 8px; text-align: left; }";
      "        th { background-color: #f2f2f2; }";
      "        tr:nth-child(even) { background-color: #f9f9f9; }";
      "        .warning { background-color: #fff3cd; }";
      "        .danger { background-color: #f8d7da; }";
      "        .footer { margin-top: 30px; font-size: 0.8em; color: #666; }";
      "    </style>";
      "</head>";
      "<body>";
      "    <h1>Disk Status Report</h1>";
      "    <p>Generated on " ++ timestamp ++ "</p>";
      "    ";
      "    <h2>ATA Devices</h2>";
      "    " ++ match ata_data analyzed_data with
                | [] => "<p>No ATA devices found.</p>"
                | _ :: _ => _generate_html_table (ata_data analyzed_data) ata_headers
                end;
      "    ";
      "    <h2>NVMe Devices</h2>";
      "    " ++ match nvme_data analyzed_data with
                | [] => "<p>No NVMe devices found.</p>"
                | _ :: _ => _generate_html_table (nvme_data analyzed_data) nvme_headers
                end;
      "    ";
      "    <div class=" ++ dq ++ "footer" ++ dq ++ ">";
      "        <p>Report generated by DiskHealthMonitor</p>";
      "    </div>";
      "</body>";
      "</html>" ].

Definition generate_html_report (analyzed_data : analyzed) (html_file : string)
  : io unit :=
  fun w =>
    (write_file html_file (html_content (now w) analyzed_data) ;;
     print (Line ("HTML report saved to " ++ html_file ++ "!")))%io w.

(** ** The run and the command line *)

Definition run (self : DiskHealthMonitor) : io bool :=
  (json_data <- load_json_data self ;;
   match json_data with
   | [] =>
       print (Line "No data found. Verify the JSON files directory.") ;;
       ret false
   | _ :: _ =>
       analyzed_data <- lift (analyze_data json_data) ;;
       display_report analyzed_data ;;
       save_report self analyzed_data ;;
       generate_html_report analyzed_data "report.html" ;;
       ret true
   end)%io.

(** The namespace [parse_args] returns. *)
Record args : Type := mk_args {
  directory : string;
  output : string;
  html : bool;
  log : string
}.

Definition default_args : args := mk_args "disk_exs" "report.csv" false "error_log.txt".

Definition main (a : args) : io unit :=
  (_ <- run (mk_monitor (directory a) (output a) (log a)) ;;
   ret tt)%io.


(** * Specification-side definitions *)

Definition field_or_NA (key : string) (block : list (string * json)) : json :=
  match dict_lookup key block with
  | Some v => v
  | None => NA
  end.

(** The specification's reading of the scan over the attribute table:
    the entry looked for is the first one named exactly
    [Reallocated_Sector_Ct]; the result is its ["value"] field, and
    ["N/A"] when no entry has that name. *)
Definition named_reallocated (sect : json) : bool :=
  match sect with
  | JDict entry =>
      match dict_lookup "name" entry with
      | Some name => eq_str name "Reallocated_Sector_Ct"
      | None => false
      end
  | _ => false
  end.

Definition first_reallocated (table : list json) : option json :=
  match find named_reallocated table with
  | Some (JDict entry) => dict_lookup "value" entry
  | Some _ => None
  | None => Some NA
  end.

(** A table entry the scan can read: a mapping with a ["name"], and with
    a ["value"] when the name is the one looked for. *)
Definition entry_ok (sect : json) : bool :=
  match sect with
  | JDict entry =>
      match dict_lookup "name" entry with
      | Some name =>
          if eq_str name "Reallocated_Sector_Ct"
          then match dict_lookup "value" entry with Some _ => true | None => false end
          else true
      | None => false
      end
  | _ => false
  end.

(** The entries the scan visits: those up to the first one with the name
    looked for, that one included. *)
Fixpoint up_to_match (table : list json) : list json :=
  match table with
  | [] => []
  | sect :: rest =>
      if named_reallocated sect then [sect] else sect :: up_to_match rest
  end.

Definition sample_table : list json :=
  [JDict [("name", JStr "Raw_Read_Error_Rate"); ("value", JInt 100)];
   JDict [("name", JStr "Reallocated_Sector_Ct"); ("value", JInt 3)];
   JDict [("name", JStr "Reallocated_Sector_Ct"); ("value", JInt 9)];
   JInt 7].

Definition sample_ata : json :=
  JDict
    [("power_on_time", JDict [("hours", JInt 40000)]);
     ("temperature", JDict [("current", JInt 55)]);
     ("ata_smart_attributes", JDict [("table", JList sample_table)])].

(** A record of a recognized shape: the test of [analyze_data] finds one
    of the two family keys. *)
Definition recognized (data : json) : bool :=
  match py_contains "ata_smart_attributes" data with
  | Ok true => true
  | Ok false =>
      match py_contains "nvme_smart_health_information" data with
      | Ok b => b
      | Raise _ => false
      end
  | Raise _ => false
  end.

(** The load positions, counted from [idx], of the recognized records. *)
Fixpoint positions_from (idx : Z) (json_data : list json) : list Z :=
  match json_data with
  | [] => []
  | data :: rest =>
      if recognized data then idx :: positions_from (idx + 1) rest
      else positions_from (idx + 1) rest
  end.

Definition sequence_number (row : list json) : json := hd JNull row.

(** The three ways a cell element opens. *)
Definition cell_openings : list string :=
  ["<td>"; "<td class=" ++ dq ++ "warning" ++ dq ++ ">";
   "<td class=" ++ dq ++ "danger" ++ dq ++ ">"].

(** The display rows of the NVMe view keep the family's constant fifth
    field: each has four cells. *)
Definition nvme_row (row : list json) : Prop :=
  exists p_on_h current_temp, row = [JStr "NVMe"; p_on_h; current_temp; NA].

Definition sample_nvme : json :=
  JDict [("nvme_smart_health_information",
          JDict [("power_on_hours", JInt 100); ("temperature", JInt 30)])].

(** A directory [disk_exs] holding the one file [nvme0.json]; every
    path can be opened for writing. *)
Definition sample_world : world :=
  mk_world (fun path => String.eqb path "disk_exs")
           (fun path => if String.eqb path "disk_exs" then Ok ["nvme0.json"]
                        else Raise (OSError path))
           (fun path => if String.eqb path "disk_exs/nvme0.json" then inr sample_nvme
                        else inl "No such file or directory")
           (fun _ => Ok tt)
           "01/01/2025 12:00:00" [] [] [].

(** The reader after the text of a field [s] has gone by: waiting for
    the field to start (the field is empty), inside it, or just after
    its closing quote. *)
Definition field_read (r : reader) (s : string) (fs : list string) : Prop :=
  fields r = fs /\
  ((state r = START_FIELD /\ s = EmptyString) \/
   (state r = IN_FIELD /\ field r = s) \/
   (state r = QUOTE_IN_QUOTED_FIELD /\ field r = s)).

Definition start : reader := mk_reader START_RECORD EmptyString [].

(** The world with its log replaced. *)
Definition with_log (w : world) (entries : list string) : world :=
  mk_world (path_exists w) (listdir w) (json_file w) (open_w w) (now w)
           entries (stdout w) (written w).

(** What the loader is expected to make of a directory listing: the
    entries with the suffix, the documents of those that load, and one
    log line for each of those that do not. *)
Definition json_names (names : list string) : list string :=
  filter (fun filename => endswith filename ".json") names.

Definition loaded_docs (files : string -> string + json) (dir : string)
           (names : list string) : list json :=
  flat_map (fun filename =>
              match files (path_join dir filename) with
              | inr doc => [doc]
              | inl _ => []
              end) (json_names names).

Definition load_errors (files : string -> string + json) (dir : string)
           (names : list string) : list string :=
  flat_map (fun filename =>
              match files (path_join dir filename) with
              | inr _ => []
              | inl err =>
                  ["Error reading JSON file " ++ path_join dir filename ++ ": " ++ err]
              end) (json_names names).

(** A directory with a document that loads, one that does not, and two
    entries without the suffix. *)
Definition mixed_world : world :=
  mk_world (fun path => String.eqb path "disk_exs")
           (fun path => if String.eqb path "disk_exs"
                        then Ok ["a.json"; "notes.txt"; "b.json"; "c.JSON"]
                        else Raise (OSError path))
           (fun path => if String.eqb path "disk_exs/a.json" then inr sample_nvme
                        else inl "Expecting value: line 1 column 1 (char 0)")
           (fun _ => Ok tt)
           "01/01/2025 12:00:00" [] [] [].

(** A document that is not a mapping. *)
Definition is_mapping (data : json) : bool :=
  match data with
  | JDict _ => true
  | _ => false
  end.

(** The family a row of the full view belongs to, read off its second
    cell. *)
Definition is_family (name : string) (row : list json) : bool :=
  match row with
  | _ :: family :: _ => eq_str family name
  | _ => false
  end.

(** A document of no recognized shape whose test does not raise. *)
Definition skipped (data : json) : bool :=
  match py_contains "ata_smart_attributes" data,
        py_contains "nvme_smart_health_information" data with
  | Ok false, Ok false => true
  | _, _ => false
  end.

(** What ties the three views together: every row of the full view has
    five cells, each family view is the full view filtered by family with
    the sequence number dropped, and no row is in neither. *)
Definition views_agree (a : analyzed) : Prop :=
  Forall (fun row => length row = 5) (all_data a) /\
  ata_data a = map (@tl json) (filter (is_family "ATA") (all_data a)) /\
  nvme_data a = map (@tl json) (filter (is_family "NVMe") (all_data a)) /\
  length (all_data a) = length (ata_data a) + length (nvme_data a).



(** The class a cell is given, if any, read as a table of thresholds:
    the column, its header, the integer the text stands for. *)
Definition cell_class (headers : list string) (i : nat) (cell_str : string)
  : option string :=
  match py_int cell_str with
  | None => None
  | Some n =>
      if Nat.eqb i 3 && header_is headers i "Reallocated Sectors"
      then (if (n >? 0)%Z then Some "warning" else None)
      else if Nat.eqb i 1 && header_is headers i "Power-on Hours"
      then (if (n >? 30000)%Z then Some "warning" else None)
      else if Nat.eqb i 2 && header_is headers i "Temperature"
      then (if (n >? 50)%Z then Some "danger" else None)
      else None
  end.

(** The family test of [analyze_data] as a boolean: the key is found. *)
Definition has_key (key : string) (data : json) : bool :=
  match py_contains key data with
  | Ok found => found
  | Raise _ => false
  end.

(** The text of a table around one of its cells: what the generator
    has produced when it reaches the cell, and what it adds after it. *)
Definition table_before (headers : list string) (rows_before : list (list json))
           (cells_before : list json) : string :=
  "<table>" ++ nl ++ "<tr>"
  ++ join EmptyString (map (fun header => "<th>" ++ header ++ "</th>") headers)
  ++ "</tr>" ++ nl
  ++ join EmptyString (map (render_row headers) rows_before)
  ++ "<tr>" ++ render_cells headers 0 cells_before.

Definition table_after (headers : list string) (i : nat) (cells_after : list json)
           (rows_after : list (list json)) : string :=
  render_cells headers (S i) cells_after ++ "</tr>" ++ nl
  ++ join EmptyString (map (render_row headers) rows_after)
  ++ "</table>".

(** The table in which the cell after [cells_before], in the row after
    [rows_before], has the markup [markup]. *)
Definition table_with (headers : list string) (rows_before : list (list json))
           (cells_before : list json) (markup : string) (cells_after : list json)
           (rows_after : list (list json)) : string :=
  table_before headers rows_before cells_before ++ markup
  ++ table_after headers (length cells_before) cells_after rows_after.

(** The markup of a cell with the class [class], or without one. *)
Definition classed (class : option string) (cell_str : string) : string :=
  match class with
  | Some name => td_class name cell_str
  | None => td cell_str
  end.


(** What [display_report] prints. *)
Definition display_items (r : analyzed) : list out :=
  [Line (nl ++ "### ATA DEVICES ###");
   match ata_data r with
   | _ :: _ => Table (ata_data r) ata_headers
   | [] => Line "No ATA devices found."
   end;
   Line (nl ++ "### NVMe DEVICES ###");
   match nvme_data r with
   | _ :: _ => Table (nvme_data r) nvme_headers
   | [] => Line "No NVMe devices found."
   end].

(** The world with its console and its written files replaced. *)
Definition with_output (w : world) (console : list out)
           (files : list (string * string)) : world :=
  mk_world (path_exists w) (listdir w) (json_file w) (open_w w) (now w)
           (error_log w) console files.

(** The HTML document for a report without any device, as the template
    of [generate_html_report] spells it. *)
Definition empty_report (timestamp : string) : string :=
  join nl
    [ "<!DOCTYPE html>";
      "<html lang=" ++ dq ++ "en" ++ dq ++ ">";
      "<head>";
      "    <meta charset=" ++ dq ++ "UTF-8" ++ dq ++ ">";
      "    <meta name=" ++ dq ++ "viewport" ++ dq ++ " content=" ++ dq
        ++ "width=device-width, initial-scale=1.0" ++ dq ++ ">";
      "    <title>Disk Status Report</title>";
      "    <style>";
      "        body { font-family: Arial, sans-serif; margin: 20px; }";
      "        h1, h2 { color: #333; }";
      "        table { border-collapse: collapse; width: 100%; margin-bottom: 20px; }";
      "        th, td { border: 1px solid #ddd; padding: 8px; text-align: left; }";
      "        th { background-color: #f2f2f2; }";
      "        tr:nth-child(even) { background-color: #f9f9f9; }";
      "        .warning { background-color: #fff3cd; }";
      "        .danger { background-color: #f8d7da; }";
      "        .footer { margin-top: 30px; font-size: 0.8em; color: #666; }";
      "    </style>";
      "</head>";
      "<body>";
      "    <h1>Disk Status Report</h1>";
      "    <p>Generated on " ++ timestamp ++ "</p>";
      "    ";
      "    <h2>ATA Devices</h2>";
      "    <p>No ATA devices found.</p>";
      "    ";
      "    <h2>NVMe Devices</h2>";
      "    <p>No NVMe devices found.</p>";
      "    ";
      "    <div class=" ++ dq ++ "footer" ++ dq ++ ">";
      "        <p>Report generated by DiskHealthMonitor</p>";
      "    </div>";
      "</body>";
      "</html>" ].

(** [sample_world] with one document of no recognized shape. *)
Definition unrecognized_world : world :=
  mk_world (path_exists sample_world) (listdir sample_world)
           (fun _ => inr (JDict [("model_name", JStr "disk")]))
           (open_w sample_world) (now sample_world) [] [] [].

(** [sample_world] where [report.html] cannot be opened for writing. *)
Definition html_locked_world : world :=
  mk_world (path_exists sample_world) (listdir sample_world)
           (json_file sample_world)
           (fun path => if String.eqb path "report.html"
                        then Raise (OSError path) else Ok tt)
           (now sample_world) [] [] [].

(** * Properties *)

(** ** Strings *)

Lemma append_assoc (a b c : string) : (a ++ b) ++ c = a ++ b ++ c.
Proof. induction a as [| x a IH]; simpl; [reflexivity | rewrite IH; reflexivity]. Qed.

Lemma append_nil_r (a : string) : a ++ EmptyString = a.
Proof. induction a as [| x a IH]; simpl; [reflexivity | rewrite IH; reflexivity]. Qed.

Lemma join_empty_cons (x : string) (xs : list string) :
  join EmptyString (x :: xs) = x ++ join EmptyString xs.
Proof.
  destruct xs as [| y ys]; cbn [join].
  - rewrite append_nil_r. reflexivity.
  - reflexivity.
Qed.

Lemma join_empty_app (xs ys : list string) :
  join EmptyString (xs ++ ys)%list = join EmptyString xs ++ join EmptyString ys.
Proof.
  induction xs as [| x xs IH].
  - reflexivity.
  - change ((x :: xs) ++ ys)%list with (x :: (xs ++ ys))%list.
    rewrite !join_empty_cons, IH, append_assoc. reflexivity.
Qed.

(** ** Extraction *)

Lemma bind_ok {A B : Type} (r : result A) (k : A -> result B) (b : B) :
  bind r k = Ok b -> exists a, r = Ok a /\ k a = Ok b.
Proof.
  destruct r as [a | e]; simpl; intros H; [exists a; auto | discriminate].
Qed.

Lemma getitem_ok (data : json) (key : string) (v : json) :
  py_getitem data key = Ok v ->
  exists block, data = JDict block /\ dict_lookup key block = Some v.
Proof.
  destruct data as [| | | | | | block]; simpl; try discriminate.
  intros H. exists block. split; [reflexivity |].
  destruct (dict_lookup key block); [congruence | discriminate].
Qed.

Ltac bind_inv H :=
  let a := fresh "a" in
  let Ha := fresh "Ha" in
  apply bind_ok in H; destruct H as (a & Ha & H).

Lemma scan_first_match (table : list json) (v : json) :
  scan_reallocated table = Ok v -> first_reallocated table = Some v.
Proof.
  unfold first_reallocated.
  induction table as [| sect rest IH]; simpl.
  - congruence.
  - intros H. bind_inv H.
    apply getitem_ok in Ha. destruct Ha as (entry & -> & Hname).
    simpl. rewrite Hname.
    destruct (eq_str a "Reallocated_Sector_Ct").
    + apply getitem_ok in H. destruct H as (entry' & Heq & Hvalue).
      injection Heq as <-. exact Hvalue.
    + auto.
Qed.

Lemma scan_returns (table : list json) :
  forallb entry_ok (up_to_match table) = true ->
  exists v, scan_reallocated table = Ok v.
Proof.
  induction table as [| sect rest IH].
  - intros _. exists NA. reflexivity.
  - intros H. cbn [up_to_match] in H.
    destruct sect as [| | | | | | entry]; try (cbn in H; discriminate H).
    cbn [scan_reallocated py_getitem].
    unfold named_reallocated in H.
    destruct (dict_lookup "name" entry) as [name |] eqn:Hname.
    2: { cbn [forallb entry_ok] in H. rewrite Hname in H. discriminate H. }
    cbn [bind].
    destruct (eq_str name "Reallocated_Sector_Ct") eqn:Heq.
    + cbn [forallb entry_ok] in H. rewrite Hname, Heq in H.
      destruct (dict_lookup "value" entry) as [v |]; [| discriminate H].
      exists v. reflexivity.
    + cbn [forallb] in H. apply andb_prop in H. apply IH, H.
Qed.

Lemma extract_ata_inv (data : json) (index : Z) (row : list json) :
  extract_ata_data data index = Ok row ->
  exists pot tmp attrs table sects v,
    py_getitem data "power_on_time" = Ok (JDict pot) /\
    py_getitem data "temperature" = Ok (JDict tmp) /\
    py_getitem data "ata_smart_attributes" = Ok attrs /\
    py_getitem attrs "table" = Ok table /\
    py_iter table = Ok sects /\
    scan_reallocated sects = Ok v /\
    row = [JInt index; JStr "ATA"; field_or_NA "hours" pot;
           field_or_NA "current" tmp; v].
Proof.
  unfold extract_ata_data. intros H.
  bind_inv H. bind_inv H. bind_inv H. bind_inv H.
  bind_inv H. bind_inv H. bind_inv H. bind_inv H.
  destruct a as [| | | | | | pot]; try discriminate.
  destruct a1 as [| | | | | | tmp]; try discriminate.
  simpl in Ha0, Ha2. injection Ha0 as <-. injection Ha2 as <-.
  injection H as <-.
  exists pot, tmp, a3, a4, a5, a6. repeat split; assumption.
Qed.

Lemma extract_ata_ok (data : json) (index : Z)
      (pot tmp : list (string * json)) (attrs : json) (table : list json) :
  py_getitem data "power_on_time" = Ok (JDict pot) ->
  py_getitem data "temperature" = Ok (JDict tmp) ->
  py_getitem data "ata_smart_attributes" = Ok attrs ->
  py_getitem attrs "table" = Ok (JList table) ->
  forallb entry_ok (up_to_match table) = true ->
  exists v,
    first_reallocated table = Some v /\
    extract_ata_data data index =
      Ok [JInt index; JStr "ATA"; field_or_NA "hours" pot;
          field_or_NA "current" tmp; v].
Proof.
  intros Hp Ht Ha Htab Hok.
  destruct (scan_returns table Hok) as [v Hv].
  exists v. split; [apply scan_first_match; exact Hv |].
  unfold extract_ata_data.
  rewrite Hp; simpl. rewrite Ht; simpl. rewrite Ha; simpl. rewrite Htab; simpl.
  rewrite Hv; simpl. reflexivity.
Qed.

(** C4: for an ATA record with an attribute table, the extracted
    reallocated-sectors field is the ["value"] of the first table entry
    named exactly [Reallocated_Sector_Ct] (entries after it are not
    looked at) and ["N/A"] when no entry has that name; and extraction
    does return such a row when the two blocks are mappings and the
    entries are readable. *)
Theorem reallocated_sectors_first_match :
  forall (data : json) (index : Z) (attrs : json) (table : list json),
    py_contains "ata_smart_attributes" data = Ok true ->
    py_getitem data "ata_smart_attributes" = Ok attrs ->
    py_getitem attrs "table" = Ok (JList table) ->
    (forall row, extract_ata_data data index = Ok row ->
       exists v, first_reallocated table = Some v /\ nth_error row 4 = Some v) /\
    (forall pot tmp,
       py_getitem data "power_on_time" = Ok (JDict pot) ->
       py_getitem data "temperature" = Ok (JDict tmp) ->
       forallb entry_ok (up_to_match table) = true ->
       exists v, first_reallocated table = Some v /\
         extract_ata_data data index =
           Ok [JInt index; JStr "ATA"; field_or_NA "hours" pot;
               field_or_NA "current" tmp; v]).
Proof.
  intros data index attrs table _ Hattrs Htable. split.
  - intros row Hrow.
    apply extract_ata_inv in Hrow.
    destruct Hrow as (pot & tmp & attrs' & table' & sects & v & _ & _ & Ha & Ht & Hi & Hs & ->).
    rewrite Hattrs in Ha. injection Ha as <-.
    rewrite Htable in Ht. injection Ht as <-.
    simpl in Hi. injection Hi as <-.
    exists v. split; [apply scan_first_match; exact Hs | reflexivity].
  - intros pot tmp Hp Ht Hok.
    exact (extract_ata_ok data index pot tmp attrs table Hp Ht Hattrs Htable Hok).
Qed.

Lemma reallocated_sectors_first_match_witness :
  (exists v, first_reallocated sample_table = Some v /\
             nth_error [JInt 1; JStr "ATA"; JInt 40000; JInt 55; JInt 3] 4 = Some v) /\
  (exists v, first_reallocated sample_table = Some v /\
             extract_ata_data sample_ata 1 =
               Ok [JInt 1; JStr "ATA"; JInt 40000; JInt 55; v]).
Proof.
  destruct (reallocated_sectors_first_match sample_ata 1
              (JDict [("table", JList sample_table)]) sample_table
              eq_refl eq_refl eq_refl) as [Hvalue Hreturns].
  split.
  - apply Hvalue. reflexivity.
  - apply (Hreturns [("hours", JInt 40000)] [("current", JInt 55)]); reflexivity.
Defined.

(** C1, as stated, fails: a record that is a mapping and is classified
    as ATA, but has no power-on-time block, makes extraction raise
    [KeyError] instead of returning a row with ["N/A"]. *)
Lemma missing_block_raises :
  py_contains "ata_smart_attributes"
    (JDict [("ata_smart_attributes", JDict [("table", JList [])])]) = Ok true /\
  extract_ata_data
    (JDict [("ata_smart_attributes", JDict [("table", JList [])])]) 1
  = Raise (KeyError "power_on_time") /\
  ~ (exists row,
       extract_ata_data
         (JDict [("ata_smart_attributes", JDict [("table", JList [])])]) 1
       = Ok row).
Proof.
  split; [reflexivity | split; [reflexivity |]].
  intros [row H]. discriminate H.
Qed.

(** C1, amended: only the sub-fields are optional.  When the blocks of
    an ATA record are mappings and its table entries are readable,
    extraction returns a row in which an absent ["hours"] or
    ["current"] sub-field is ["N/A"]; when the health block of an NVMe
    record is a mapping, extraction returns a row in which an absent
    ["power_on_hours"] or ["temperature"] is ["N/A"]; an absent
    power-on-time block, temperature block or attribute table raises
    [KeyError]. *)
Theorem extraction_defaults_missing_subfields :
  forall (data : json) (index : Z),
    (forall pot tmp attrs table,
       py_getitem data "power_on_time" = Ok (JDict pot) ->
       py_getitem data "temperature" = Ok (JDict tmp) ->
       py_getitem data "ata_smart_attributes" = Ok attrs ->
       py_getitem attrs "table" = Ok (JList table) ->
       forallb entry_ok (up_to_match table) = true ->
       exists v,
         extract_ata_data data index =
           Ok [JInt index; JStr "ATA"; field_or_NA "hours" pot;
               field_or_NA "current" tmp; v] /\
         (dict_lookup "hours" pot = None -> field_or_NA "hours" pot = NA) /\
         (dict_lookup "current" tmp = None -> field_or_NA "current" tmp = NA) /\
         (find named_reallocated table = None -> v = NA)) /\
    (forall health,
       py_getitem data "nvme_smart_health_information" = Ok (JDict health) ->
       extract_nvme_data data index =
         Ok [JInt index; JStr "NVMe"; field_or_NA "power_on_hours" health;
             field_or_NA "temperature" health; NA] /\
       (dict_lookup "power_on_hours" health = None ->
        field_or_NA "power_on_hours" health = NA) /\
       (dict_lookup "temperature" health = None ->
        field_or_NA "temperature" health = NA)) /\
    (forall block,
       data = JDict block ->
       (dict_lookup "power_on_time" block = None ->
        extract_ata_data data index = Raise (KeyError "power_on_time")) /\
       (forall pot,
          dict_lookup "power_on_time" block = Some (JDict pot) ->
          dict_lookup "temperature" block = None ->
          extract_ata_data data index = Raise (KeyError "temperature")) /\
       (forall pot tmp attrs,
          dict_lookup "power_on_time" block = Some (JDict pot) ->
          dict_lookup "temperature" block = Some (JDict tmp) ->
          dict_lookup "ata_smart_attributes" block = Some (JDict attrs) ->
          dict_lookup "table" attrs = None ->
          extract_ata_data data index = Raise (KeyError "table"))).
Proof.
  intros data index. split; [| split].
  - intros pot tmp attrs table Hp Ht Ha Htab Hok.
    destruct (extract_ata_ok data index pot tmp attrs table Hp Ht Ha Htab Hok)
      as (v & Hfirst & Hrow).
    exists v. split; [exact Hrow |].
    unfold field_or_NA. repeat split.
    + intros ->. reflexivity.
    + intros ->. reflexivity.
    + intros Hnone. unfold first_reallocated in Hfirst.
      rewrite Hnone in Hfirst. congruence.
  - intros health Hh. unfold extract_nvme_data, field_or_NA.
    rewrite Hh. simpl. repeat split; intros ->; reflexivity.
  - intros block ->. unfold extract_ata_data. cbn [py_getitem]. repeat split.
    + intros ->. reflexivity.
    + intros pot -> ->. reflexivity.
    + intros pot tmp attrs -> -> -> Htable.
      cbn [bind py_get py_getitem]. rewrite Htable. reflexivity.
Qed.

Lemma extraction_defaults_missing_subfields_witness :
  extract_ata_data
    (JDict [("power_on_time", JDict []); ("temperature", JDict []);
            ("ata_smart_attributes", JDict [("table", JList [])])]) 1
  = Ok [JInt 1; JStr "ATA"; NA; NA; NA] /\
  extract_nvme_data (JDict [("nvme_smart_health_information", JDict [])]) 2
  = Ok [JInt 2; JStr "NVMe"; NA; NA; NA].
Proof.
  split.
  - destruct (extraction_defaults_missing_subfields
                (JDict [("power_on_time", JDict []); ("temperature", JDict []);
                        ("ata_smart_attributes", JDict [("table", JList [])])]) 1)
      as [Hata _].
    destruct (Hata [] [] (JDict [("table", JList [])]) []
                eq_refl eq_refl eq_refl eq_refl eq_refl)
      as (v & Hrow & _ & _ & Hv).
    rewrite Hrow. rewrite (Hv eq_refl). reflexivity.
  - destruct (extraction_defaults_missing_subfields
                (JDict [("nvme_smart_health_information", JDict [])]) 2)
      as (_ & Hnvme & _).
    destruct (Hnvme [] eq_refl) as (Hrow & _).
    exact Hrow.
Defined.

(** ** Aggregation *)

Lemma extract_nvme_inv (data : json) (index : Z) (row : list json) :
  extract_nvme_data data index = Ok row ->
  exists health,
    py_getitem data "nvme_smart_health_information" = Ok (JDict health) /\
    row = [JInt index; JStr "NVMe"; field_or_NA "power_on_hours" health;
           field_or_NA "temperature" health; NA].
Proof.
  unfold extract_nvme_data. intros H.
  bind_inv H. bind_inv H. bind_inv H.
  destruct a as [| | | | | | health]; try discriminate.
  simpl in Ha0, Ha1. injection Ha0 as <-. injection Ha1 as <-.
  injection H as <-.
  exists health. split; [assumption | reflexivity].
Qed.

Lemma analyze_loop_sequence (json_data : list json) :
  forall (idx : Z) (acc r : analyzed),
    analyze_loop idx json_data acc = Ok r ->
    map sequence_number (all_data r) =
      (map sequence_number (all_data acc) ++ map JInt (positions_from idx json_data))%list.
Proof.
  induction json_data as [| data rest IH]; intros idx acc r H.
  - simpl in H. injection H as <-. simpl. rewrite app_nil_r. reflexivity.
  - cbn [analyze_loop] in H. cbn [positions_from]. unfold recognized.
    bind_inv H. rewrite Ha. destruct a.
    + bind_inv H. apply extract_ata_inv in Ha0.
      destruct Ha0 as (pot & tmp & attrs & table & sects & v & _ & _ & _ & _ & _ & _ & ->).
      apply IH in H. rewrite H. cbn [all_data].
      rewrite map_app. cbn [map sequence_number hd].
      rewrite <- app_assoc. reflexivity.
    + bind_inv H. rewrite Ha0. destruct a.
      * bind_inv H. apply extract_nvme_inv in Ha1.
        destruct Ha1 as (health & _ & ->).
        apply IH in H. rewrite H. cbn [all_data].
        rewrite map_app. cbn [map sequence_number hd].
        rewrite <- app_assoc. reflexivity.
      * apply IH in H. exact H.
Qed.

Lemma positions_lower (json_data : list json) :
  forall (idx p : Z) (k : nat),
    nth_error (positions_from idx json_data) k = Some p ->
    (idx + Z.of_nat k <= p)%Z.
Proof.
  induction json_data as [| data rest IH]; intros idx p k H.
  - destruct k; discriminate.
  - cbn [positions_from] in H. destruct (recognized data).
    + destruct k as [| k].
      * simpl in H. injection H as <-. lia.
      * simpl in H. apply IH in H. lia.
    + apply IH in H. lia.
Qed.

Lemma positions_sorted (json_data : list json) :
  forall idx : Z, StronglySorted Z.lt (positions_from idx json_data).
Proof.
  induction json_data as [| data rest IH]; intros idx; cbn [positions_from].
  - constructor.
  - destruct (recognized data); [| apply IH].
    constructor; [apply IH |].
    apply Forall_forall. intros p Hp.
    apply In_nth_error in Hp. destruct Hp as [k Hk].
    apply positions_lower in Hk. lia.
Qed.

Lemma positions_all_recognized (json_data : list json) :
  forall idx : Z,
    forallb recognized json_data = true ->
    positions_from idx json_data =
      map (fun k => (idx + Z.of_nat k)%Z) (seq 0 (length json_data)).
Proof.
  induction json_data as [| data rest IH]; intros idx H.
  - reflexivity.
  - cbn [forallb] in H. apply andb_prop in H. destruct H as [Hd Hrest].
    cbn [positions_from length seq map]. rewrite Hd.
    f_equal; [lia |].
    rewrite IH by assumption.
    rewrite <- seq_shift, map_map.
    apply map_ext. intros k. lia.
Qed.

(** C2, as stated, fails: an unrecognized record takes a sequence number
    of its own, so the first row of the full view can carry number 2. *)
Lemma sequence_gap_after_unrecognized :
  exists r,
    analyze_data [JDict []; JDict [("nvme_smart_health_information", JDict [])]] = Ok r /\
    map sequence_number (all_data r) = [JInt 2] /\
    ~ (forall k row, nth_error (all_data r) k = Some row ->
                     sequence_number row = JInt (Z.of_nat (S k))).
Proof.
  eexists. split; [reflexivity | split; [reflexivity |]].
  intros H. specialize (H 0%nat _ eq_refl). discriminate H.
Qed.

(** C2, amended: whenever aggregation returns, the sequence numbers of
    the rows of the full view are the 1-based load positions of the
    recognized records, in load order; they are strictly increasing
    (so there is no duplicate), the k-th row carries a number of at
    least k, and exactly k for every row when every record is
    recognized. *)
Theorem sequence_numbers_are_load_positions :
  forall (json_data : list json) (r : analyzed),
    analyze_data json_data = Ok r ->
    map sequence_number (all_data r) = map JInt (positions_from 1 json_data) /\
    StronglySorted Z.lt (positions_from 1 json_data) /\
    (forall k p, nth_error (positions_from 1 json_data) k = Some p ->
                 (Z.of_nat (S k) <= p)%Z) /\
    (forallb recognized json_data = true ->
     positions_from 1 json_data =
       map (fun k => Z.of_nat (S k)) (seq 0 (length json_data))).
Proof.
  intros json_data r H. unfold analyze_data in H.
  apply analyze_loop_sequence in H. simpl in H.
  repeat split.
  - exact H.
  - apply positions_sorted.
  - intros k p Hk. apply positions_lower in Hk. lia.
  - intros Hall. rewrite positions_all_recognized by assumption.
    apply map_ext. intros k. lia.
Qed.

Lemma sequence_numbers_are_load_positions_witness :
  map sequence_number
      [[JInt 2; JStr "NVMe"; NA; NA; NA]; [JInt 3; JStr "NVMe"; NA; NA; JStr "N/A"]]
  = map JInt
      (positions_from 1
         [JDict []; JDict [("nvme_smart_health_information", JDict [])];
          JDict [("nvme_smart_health_information", JDict [])]]).
Proof.
  apply (sequence_numbers_are_load_positions
           [JDict []; JDict [("nvme_smart_health_information", JDict [])];
            JDict [("nvme_smart_health_information", JDict [])]]
           (mk_analyzed []
              [[JStr "NVMe"; NA; NA; NA]; [JStr "NVMe"; NA; NA; NA]]
              [[JInt 2; JStr "NVMe"; NA; NA; NA]; [JInt 3; JStr "NVMe"; NA; NA; NA]])).
  reflexivity.
Defined.

(** ** HTML table *)

Lemma py_int_NA : py_int "N/A" = None.
Proof. reflexivity. Qed.

Ltac split_conditions :=
  repeat match goal with
         | |- context [if ?b then _ else _] => destruct b
         end.


Lemma render_cells_app (headers : list string) (cells : list json) :
  forall (i : nat) (more : list json),
    render_cells headers i (cells ++ more)%list =
    render_cells headers i cells ++ render_cells headers (i + length cells) more.
Proof.
  induction cells as [| cell cells IH]; intros i more.
  - cbn [app render_cells length append]. rewrite Nat.add_0_r. reflexivity.
  - cbn [app render_cells length]. rewrite IH, append_assoc.
    replace (S i + length cells) with (i + S (length cells)) by lia.
    reflexivity.
Qed.

(** The text of the table, cut at one cell that has a header. *)
Lemma table_cell_frame (headers : list string) (rows_before : list (list json))
      (cells_before : list json) (cell : json) (cells_after : list json)
      (rows_after : list (list json)) :
  length cells_before < length headers ->
  _generate_html_table
    (rows_before ++ (cells_before ++ cell :: cells_after) :: rows_after)%list headers =
  table_with headers rows_before cells_before
             (render_cell headers (length cells_before) cell)
             cells_after rows_after.
Proof.
  intros Hi.
  unfold _generate_html_table, table_with, table_before, table_after.
  rewrite map_app, join_empty_app. cbn [map].
  rewrite join_empty_cons. unfold render_row at 2.
  rewrite render_cells_app. cbn [render_cells Nat.add].
  destruct (Nat.leb_spec (length headers) (length cells_before)) as [Hle | _];
    [lia |].
  rewrite !append_assoc. reflexivity.
Qed.



(** C9: nothing is escaped.  The markup of a cell is an opening tag, then
    the text [str] gives for the value, unchanged, then the closing tag;
    so a value with [<] or [&] in it goes into the document as markup. *)
Theorem html_cell_verbatim :
  forall (headers : list string) (i : nat) (cell : json),
    (exists opening,
       In opening cell_openings /\
       render_cell headers i cell = opening ++ py_str cell ++ "</td>") /\
    _generate_html_table [[JStr "<b>R&D</b>"]] ["<i>Type</i>"] =
      "<table>" ++ nl ++ "<tr><th><i>Type</i></th></tr>" ++ nl
      ++ "<tr><td><b>R&D</b></td></tr>" ++ nl ++ "</table>".
Proof.
  intros headers i cell. split; [| reflexivity].
  unfold render_cell, cell_openings.
  destruct (py_int (py_str cell)) as [n |]; split_conditions;
    first [ exists "<td>"; split; [simpl; tauto | reflexivity]
          | exists ("<td class=" ++ dq ++ "warning" ++ dq ++ ">");
            split; [simpl; tauto | reflexivity]
          | exists ("<td class=" ++ dq ++ "danger" ++ dq ++ ">");
            split; [simpl; tauto | reflexivity] ].
Qed.

Section Columns.

Variable headers : list string.

Lemma render_cells_beyond_headers (row : list json) :
  forall i, length headers <= i -> render_cells headers i row = EmptyString.
Proof.
  induction row as [| cell rest IH]; intros i Hi; cbn [render_cells].
  - reflexivity.
  - destruct (Nat.leb_spec (length headers) i) as [_ | Hlt]; [| lia].
    rewrite IH by lia. reflexivity.
Qed.

Lemma render_cells_firstn (row : list json) :
  forall i,
    render_cells headers i row =
    render_cells headers i (firstn (length headers - i) row).
Proof.
  induction row as [| cell rest IH]; intros i.
  - rewrite firstn_nil. reflexivity.
  - destruct (Nat.leb_spec (length headers) i) as [Hle | Hlt].
    + replace (length headers - i) with 0 by lia.
      cbn [firstn]. rewrite render_cells_beyond_headers by assumption.
      reflexivity.
    + replace (length headers - i) with (S (length headers - S i)) by lia.
      cbn [firstn render_cells]. rewrite <- IH. reflexivity.
Qed.

Lemma render_row_firstn (row : list json) :
  render_row headers row = render_row headers (firstn (length headers) row).
Proof.
  unfold render_row. rewrite render_cells_firstn, Nat.sub_0_r. reflexivity.
Qed.

End Columns.

Lemma html_table_firstn (data : list (list json)) (headers : list string) :
  _generate_html_table data headers =
  _generate_html_table (map (firstn (length headers)) data) headers.
Proof.
  unfold _generate_html_table. rewrite map_map.
  rewrite (map_ext (render_row headers)
             (fun row => render_row headers (firstn (length headers) row))
             (render_row_firstn headers)).
  reflexivity.
Qed.

Lemma analyze_loop_nvme_rows (json_data : list json) :
  forall (idx : Z) (acc r : analyzed),
    analyze_loop idx json_data acc = Ok r ->
    Forall nvme_row (nvme_data acc) -> Forall nvme_row (nvme_data r).
Proof.
  induction json_data as [| data rest IH]; intros idx acc r H Hacc.
  - simpl in H. injection H as <-. exact Hacc.
  - cbn [analyze_loop] in H. bind_inv H. destruct a.
    + bind_inv H. apply IH in H; [exact H | exact Hacc].
    + bind_inv H. destruct a.
      * bind_inv H. apply extract_nvme_inv in Ha1.
        destruct Ha1 as (health & _ & ->).
        apply IH in H; [exact H |].
        cbn [nvme_data tl]. apply Forall_app. split; [exact Hacc |].
        constructor; [| constructor].
        exists (field_or_NA "power_on_hours" health),
               (field_or_NA "temperature" health).
        reflexivity.
      * apply IH in H; [exact H | exact Hacc].
Qed.

(** C10: the table generator renders only the first [len(headers)] cells
    of a row; every display row of the NVMe view has a fourth cell,
    ["N/A"], that the three-column NVMe table leaves out. *)
Theorem html_table_drops_extra_cells :
  forall (data : list (list json)) (headers : list string)
         (json_data : list json) (r : analyzed),
    analyze_data json_data = Ok r ->
    _generate_html_table data headers =
      _generate_html_table (map (firstn (length headers)) data) headers /\
    Forall (fun row =>
              exists p_on_h current_temp,
                row = [JStr "NVMe"; p_on_h; current_temp; NA] /\
                render_row nvme_headers row =
                  render_row nvme_headers [JStr "NVMe"; p_on_h; current_temp])
           (nvme_data r).
Proof.
  intros data headers json_data r H. split.
  - apply html_table_firstn.
  - unfold analyze_data in H.
    apply analyze_loop_nvme_rows in H; [| constructor].
    cbn [nvme_data] in H.
    eapply Forall_impl; [| exact H].
    intros row (p & t & ->). exists p, t. split; [reflexivity |].
    apply render_row_firstn.
Qed.

Lemma html_table_drops_extra_cells_witness :
  _generate_html_table [[JStr "NVMe"; JInt 100; JInt 30; NA]] nvme_headers =
    _generate_html_table
      (map (firstn (length nvme_headers)) [[JStr "NVMe"; JInt 100; JInt 30; NA]])
      nvme_headers /\
  Forall (fun row =>
            exists p_on_h current_temp,
              row = [JStr "NVMe"; p_on_h; current_temp; NA] /\
              render_row nvme_headers row =
                render_row nvme_headers [JStr "NVMe"; p_on_h; current_temp])
         [[JStr "NVMe"; JInt 100; JInt 30; NA]].
Proof.
  apply (html_table_drops_extra_cells
           [[JStr "NVMe"; JInt 100; JInt 30; NA]] nvme_headers [sample_nvme]
           (mk_analyzed [] [[JStr "NVMe"; JInt 100; JInt 30; NA]]
                        [[JInt 1; JStr "NVMe"; JInt 100; JInt 30; NA]])).
  reflexivity.
Defined.

(** ** Console, run and command line *)

(** C7 fails on the code: the NVMe display row handed to the table
    printer has four cells, the reallocated-sectors ["N/A"] among them,
    under three headers; the printer then shows four columns, the
    headers moved to the last three. *)
Theorem console_nvme_row_keeps_reallocated :
  exists r,
    analyze_data [sample_nvme] = Ok r /\
    stdout (snd (display_report r sample_world)) =
      [Line (nl ++ "### ATA DEVICES ###"); Line "No ATA devices found.";
       Line (nl ++ "### NVMe DEVICES ###");
       Table [[JStr "NVMe"; JInt 100; JInt 30; JStr "N/A"]]
             ["Type"; "Power-on Hours"; "Temperature"]] /\
    tabulate_headers (nvme_data r) nvme_headers =
      [EmptyString; "Type"; "Power-on Hours"; "Temperature"].
Proof. eexists. repeat split. Qed.

(** C3 fails on the code: [main] never reads the [--html] flag, and a
    run without it writes [report.html] all the same. *)
Theorem html_written_without_flag :
  (forall d o l w, main (mk_args d o false l) w = main (mk_args d o true l) w) /\
  html default_args = false /\
  map fst (written (snd (main default_args sample_world))) =
    ["report.csv"; "report.html"].
Proof. repeat split. Qed.

Lemma load_files_keeps_output (dir : string) (names : list string) :
  forall (json_data : list json) (w : world),
    stdout (snd (load_files dir names json_data w)) = stdout w /\
    written (snd (load_files dir names json_data w)) = written w.
Proof.
  induction names as [| filename rest IH]; intros json_data w.
  - split; reflexivity.
  - cbn [load_files]. destruct (endswith filename ".json"); [| apply IH].
    destruct (json_file w (path_join dir filename)) as [err | doc].
    + unfold bind_io, logging_error.
      match goal with
      | |- context [load_files dir rest json_data ?w'] =>
          destruct (IH json_data w') as [Hout Hwritten]
      end.
      rewrite Hout, Hwritten. split; reflexivity.
    + apply IH.
Qed.

Lemma load_keeps_output (self : DiskHealthMonitor) (w : world) :
  stdout (snd (load_json_data self w)) = stdout w /\
  written (snd (load_json_data self w)) = written w.
Proof.
  unfold load_json_data.
  destruct (path_exists w (json_dir self)); cbn [negb].
  - unfold bind_io, lift.
    destruct (listdir w (json_dir self)) as [names | e].
    + apply load_files_keeps_output.
    + split; reflexivity.
  - split; reflexivity.
Qed.

(** C8: a missing directory is logged and gives the empty sequence
    without an exception; and when loading gives no record, the run
    prints the "No data found" message, returns [False] and writes no
    file. *)
Theorem no_data_no_output :
  forall (self : DiskHealthMonitor) (w : world),
    (path_exists w (json_dir self) = false ->
     load_json_data self w =
       (Ok [],
        mk_world (path_exists w) (listdir w) (json_file w) (open_w w) (now w)
                 (error_log w ++ [("Directory " ++ json_dir self ++ " not found.")%string])%list
                 (stdout w) (written w))) /\
    (fst (load_json_data self w) = Ok [] ->
     fst (run self w) = Ok false /\
     stdout (snd (run self w)) =
       (stdout w ++ [Line "No data found. Verify the JSON files directory."])%list /\
     written (snd (run self w)) = written w).
Proof.
  intros self w. split.
  - intros Hmissing. unfold load_json_data. rewrite Hmissing. reflexivity.
  - intros Hempty.
    destruct (load_keeps_output self w) as [Hout Hwritten].
    unfold run, bind_io.
    destruct (load_json_data self w) as [res w'].
    cbn [fst snd] in *. subst res.
    cbn. rewrite Hout, Hwritten. repeat split.
Qed.

Lemma no_data_no_output_witness :
  fst (run (mk_monitor "missing" "report.csv" "error_log.txt") sample_world) = Ok false /\
  stdout (snd (run (mk_monitor "missing" "report.csv" "error_log.txt") sample_world)) =
    [Line "No data found. Verify the JSON files directory."] /\
  written (snd (run (mk_monitor "missing" "report.csv" "error_log.txt") sample_world)) = [].
Proof.
  destruct (no_data_no_output (mk_monitor "missing" "report.csv" "error_log.txt")
              sample_world) as [Hload Hrun].
  apply Hrun. rewrite Hload; reflexivity.
Defined.

(** ** CSV round trip *)

Lemma csv_special_false (c : ascii) :
  csv_special c = false ->
  is_comma c = false /\ is_quote c = false /\ is_cr c = false /\ is_lf c = false.
Proof.
  unfold csv_special. intros H.
  apply orb_false_elim in H. destruct H as [H Hlf].
  apply orb_false_elim in H. destruct H as [H Hcr].
  apply orb_false_elim in H. destruct H as [Hcomma Hquote].
  repeat split; assumption.
Qed.

Lemma read_from_cons (r : reader) (c : ascii) (rest : string) :
  read_from r (String c rest) =
  match step r c with
  | (Some record, r') => record :: read_from r' rest
  | (None, r') => read_from r' rest
  end.
Proof. reflexivity. Qed.

Lemma step_in_field_plain (c : ascii) (f : string) (fs : list string) :
  csv_special c = false ->
  step (mk_reader IN_FIELD f fs) c = (None, mk_reader IN_FIELD (add_char f c) fs).
Proof.
  intros H. apply csv_special_false in H. destruct H as (Hcomma & _ & Hcr & Hlf).
  unfold step. simpl. rewrite Hcr, Hlf, Hcomma. reflexivity.
Qed.

Lemma step_start_field_plain (c : ascii) (f : string) (fs : list string) :
  csv_special c = false ->
  step (mk_reader START_FIELD f fs) c =
  (None, mk_reader IN_FIELD (String c EmptyString) fs).
Proof.
  intros H. apply csv_special_false in H. destruct H as (Hcomma & Hquote & Hcr & Hlf).
  unfold step. simpl. rewrite Hcr, Hlf, Hquote, Hcomma. reflexivity.
Qed.

Lemma step_in_quoted (c : ascii) (f : string) (fs : list string) :
  step (mk_reader IN_QUOTED_FIELD f fs) c =
  if is_quote c then (None, mk_reader QUOTE_IN_QUOTED_FIELD f fs)
  else (None, mk_reader IN_QUOTED_FIELD (add_char f c) fs).
Proof. reflexivity. Qed.

Lemma step_quote_in_quoted (c : ascii) (f : string) (fs : list string) :
  is_quote c = true ->
  step (mk_reader QUOTE_IN_QUOTED_FIELD f fs) c =
  (None, mk_reader IN_QUOTED_FIELD (add_char f c) fs).
Proof. intros H. unfold step. simpl. rewrite H. reflexivity. Qed.

Lemma step_start_record (c : ascii) (f : string) (fs : list string) :
  is_cr c || is_lf c = false ->
  step (mk_reader START_RECORD f fs) c = step (mk_reader START_FIELD EmptyString []) c.
Proof. intros H. unfold step. simpl. rewrite H. reflexivity. Qed.

Lemma add_char_append (f : string) (c : ascii) (s : string) :
  add_char f c ++ s = f ++ String c s.
Proof. unfold add_char. rewrite append_assoc. reflexivity. Qed.

Lemma read_unquoted (s : string) :
  forall (f : string) (fs : list string) (rest : string),
    needs_quotes s = false ->
    read_from (mk_reader IN_FIELD f fs) (s ++ rest) =
    read_from (mk_reader IN_FIELD (f ++ s) fs) rest.
Proof.
  induction s as [| c s IH]; intros f fs rest H.
  - simpl. rewrite append_nil_r. reflexivity.
  - cbn [needs_quotes] in H. apply orb_false_elim in H. destruct H as [Hc Hs].
    cbn [append]. rewrite read_from_cons, step_in_field_plain by assumption.
    rewrite IH by assumption. rewrite add_char_append. reflexivity.
Qed.

Lemma read_quoted (s : string) :
  forall (f : string) (fs : list string) (rest : string),
    read_from (mk_reader IN_QUOTED_FIELD f fs) (double_quotes s ++ rest) =
    read_from (mk_reader IN_QUOTED_FIELD (f ++ s) fs) rest.
Proof.
  induction s as [| c s IH]; intros f fs rest.
  - simpl. rewrite append_nil_r. reflexivity.
  - cbn [double_quotes].
    destruct (is_quote c) eqn:Hq; cbn [append].
    + rewrite read_from_cons, step_in_quoted, Hq.
      rewrite read_from_cons, step_quote_in_quoted by assumption.
      rewrite IH, add_char_append. reflexivity.
    + rewrite read_from_cons, step_in_quoted, Hq.
      rewrite IH, add_char_append. reflexivity.
Qed.

Lemma read_field_text (s : string) (f0 : string) (fs : list string) :
  exists r, field_read r s fs /\
    forall rest, read_from (mk_reader START_FIELD f0 fs) (csv_quote s ++ rest) =
                 read_from r rest.
Proof.
  unfold csv_quote. destruct (needs_quotes s) eqn:Hq.
  - exists (mk_reader QUOTE_IN_QUOTED_FIELD s fs). split.
    + split; [reflexivity | right; right; split; reflexivity].
    + intros rest. rewrite !append_assoc.
      change (dq ++ double_quotes s ++ dq ++ rest)
        with (String (ascii_of_nat 34) (double_quotes s ++ String (ascii_of_nat 34) rest)).
      rewrite read_from_cons.
      change (step (mk_reader START_FIELD f0 fs) (ascii_of_nat 34))
        with (@None (list string), mk_reader IN_QUOTED_FIELD EmptyString fs).
      cbv beta iota. rewrite read_quoted. rewrite read_from_cons, step_in_quoted.
      reflexivity.
  - destruct s as [| c s].
    + exists (mk_reader START_FIELD f0 fs). split.
      * split; [reflexivity | left; split; reflexivity].
      * intros rest. reflexivity.
    + exists (mk_reader IN_FIELD (String c s) fs). split.
      * split; [reflexivity | right; left; split; reflexivity].
      * intros rest.
        cbn [needs_quotes] in Hq. apply orb_false_elim in Hq.
        destruct Hq as [Hc Hs].
        cbn [append]. rewrite read_from_cons, step_start_field_plain by assumption.
        rewrite read_unquoted by assumption. reflexivity.
Qed.

Lemma field_read_comma (r : reader) (s : string) (fs : list string) :
  field_read r s fs ->
  step r "," = (None, mk_reader START_FIELD EmptyString (fs ++ [s])%list).
Proof.
  destruct r as [st f fs']. unfold field_read. cbn [state field fields].
  intros (-> & [(-> & ->) | [(-> & ->) | (-> & ->)]]); reflexivity.
Qed.

Lemma field_read_cr (r : reader) (s : string) (fs : list string) :
  field_read r s fs ->
  step r (ascii_of_nat 13) =
  (Some (fs ++ [s])%list, mk_reader AFTER_CR EmptyString []).
Proof.
  destruct r as [st f fs']. unfold field_read. cbn [state field fields].
  intros (-> & [(-> & ->) | [(-> & ->) | (-> & ->)]]); reflexivity.
Qed.

(** The fields of a record, the first one included, read from the state
    that expects a field. *)
Lemma read_fields (texts : list string) :
  forall (s f0 : string) (fs : list string) (rest : string),
    read_from (mk_reader START_FIELD f0 fs)
              (join "," (map csv_quote (s :: texts)) ++ cr ++ nl ++ rest) =
    (fs ++ s :: texts)%list :: read_from start rest.
Proof.
  induction texts as [| s' texts IH]; intros s f0 fs rest.
  - cbn [map join].
    destruct (read_field_text s f0 fs) as (r & Hr & Hread).
    rewrite Hread.
    change (cr ++ nl ++ rest)
      with (String (ascii_of_nat 13) (String (ascii_of_nat 10) rest)).
    rewrite read_from_cons, (field_read_cr r s fs Hr).
    reflexivity.
  - change (join "," (map csv_quote (s :: s' :: texts)))
      with (csv_quote s ++ "," ++ join "," (map csv_quote (s' :: texts))).
    rewrite !append_assoc.
    destruct (read_field_text s f0 fs) as (r & Hr & Hread).
    rewrite Hread.
    change ("," ++ join "," (map csv_quote (s' :: texts)) ++ cr ++ nl ++ rest)
      with (String "," (join "," (map csv_quote (s' :: texts)) ++ cr ++ nl ++ rest)).
    rewrite read_from_cons, (field_read_comma r s fs Hr).
    rewrite IH. rewrite <- app_assoc. reflexivity.
Qed.

Lemma csv_quote_first (s : string) (c : ascii) (t : string) :
  csv_quote s = String c t -> is_cr c || is_lf c = false.
Proof.
  unfold csv_quote. destruct (needs_quotes s) eqn:Hq.
  - intros H. injection H as <- _. reflexivity.
  - intros ->. cbn [needs_quotes] in Hq.
    apply orb_false_elim in Hq. destruct Hq as [Hc _].
    apply csv_special_false in Hc. destruct Hc as (_ & _ & -> & ->).
    reflexivity.
Qed.

Lemma csv_quote_empty (s : string) : csv_quote s = EmptyString -> s = EmptyString.
Proof.
  unfold csv_quote. destruct (needs_quotes s); [discriminate | auto].
Qed.

Lemma body_first (s : string) (texts : list string) (c : ascii) (t : string) :
  join "," (map csv_quote (s :: texts)) = String c t -> is_cr c || is_lf c = false.
Proof.
  destruct texts as [| s' texts].
  - cbn [map join]. apply csv_quote_first.
  - change (join "," (map csv_quote (s :: s' :: texts)))
      with (csv_quote s ++ "," ++ join "," (map csv_quote (s' :: texts))).
    destruct (csv_quote s) as [| c0 t0] eqn:Hs.
    + intros H. injection H as <- _. reflexivity.
    + intros H. injection H as <- _. exact (csv_quote_first s c0 t0 Hs).
Qed.

Lemma read_record (texts : list string) (rest : string) :
  read_from start (write_record texts ++ rest) = texts :: read_from start rest.
Proof.
  destruct texts as [| s texts]; [reflexivity |].
  unfold write_record.
  destruct (String.eqb_spec (join "," (map csv_quote (s :: texts))) EmptyString)
    as [Hempty | Hbody].
  - destruct texts as [| s' texts].
    + cbn [map join] in Hempty. apply csv_quote_empty in Hempty. subst s.
      reflexivity.
    + change (join "," (map csv_quote (s :: s' :: texts)))
        with (csv_quote s ++ "," ++ join "," (map csv_quote (s' :: texts)))
        in Hempty.
      destruct (csv_quote s); discriminate.
  - rewrite append_assoc.
    pose proof (read_fields texts s EmptyString [] rest) as Hfields.
    cbn [app] in Hfields. rewrite <- Hfields. clear Hfields.
    destruct (join "," (map csv_quote (s :: texts))) as [| c t] eqn:Hjoin;
      [congruence |].
    cbn [append]. rewrite !read_from_cons.
    unfold start. rewrite step_start_record by exact (body_first s texts c t Hjoin).
    reflexivity.
Qed.

Lemma read_records (records : list (list string)) :
  read_from start (join EmptyString (map write_record records)) = records.
Proof.
  induction records as [| texts records IH].
  - reflexivity.
  - cbn [map]. rewrite join_empty_cons, read_record, IH. reflexivity.
Qed.

Lemma csv_read_content (rows : list (list json)) :
  csv_read (csv_content rows) = map (map csv_field) (csv_header :: rows).
Proof.
  unfold csv_read, csv_content, writerow.
  fold start. rewrite read_record.
  rewrite <- (map_map (map csv_field) write_record), read_records.
  reflexivity.
Qed.

(** C6, as stated, fails: a [null] sub-field is passed through by
    extraction and written as an empty field, so the text read back
    (empty) is not the text of the value ([None]). *)
Lemma csv_null_cell_not_recovered :
  exists r,
    analyze_data
      [JDict [("nvme_smart_health_information", JDict [("power_on_hours", JNull)])]]
    = Ok r /\
    all_data r = [[JInt 1; JStr "NVMe"; JNull; NA; NA]] /\
    nth_error (csv_read (csv_content (all_data r))) 1 =
      Some ["1"; "NVMe"; EmptyString; "N/A"; "N/A"] /\
    map (map py_str) (all_data r) = [["1"; "NVMe"; "None"; "N/A"; "N/A"]] /\
    csv_read (csv_content (all_data r)) <> map (map py_str) (csv_header :: all_data r).
Proof.
  eexists. split; [reflexivity |].
  split; [reflexivity | split; [reflexivity | split; [reflexivity |]]].
  intros H. apply (f_equal (fun records => nth_error records 1)) in H.
  vm_compute in H. discriminate H.
Qed.

(** C6, amended: the file written (once the output path is open; a
    failing [open] is the result of [save_report] and leaves nothing
    written) is the header line followed by one line per row of the full
    view, in order; reading it back as CSV gives the five header names
    and then, for each row, the texts its five cells were written from:
    the string form of the cell, ["N/A"] included, except that a [null]
    cell is written as the empty field. *)
Theorem csv_round_trip :
  forall (self : DiskHealthMonitor) (analyzed_data : analyzed) (w : world),
    match open_w w (output_file self) with
    | Ok _ =>
        written (snd (save_report self analyzed_data w)) =
          (written w ++ [(output_file self, csv_content (all_data analyzed_data))])%list
    | Raise e => save_report self analyzed_data w = (Raise e, w)
    end /\
    csv_content (all_data analyzed_data) =
      "# Device,Type,Power-on Hours,Temperature,Reallocated Sectors" ++ cr ++ nl
      ++ join EmptyString (map writerow (all_data analyzed_data)) /\
    csv_read (csv_content (all_data analyzed_data)) =
      ["# Device"; "Type"; "Power-on Hours"; "Temperature"; "Reallocated Sectors"]
      :: map (map csv_field) (all_data analyzed_data) /\
    (forall cell, cell <> JNull -> csv_field cell = py_str cell) /\
    csv_field JNull = EmptyString /\
    csv_field NA = "N/A".
Proof.
  intros self analyzed_data w. split.
  - unfold save_report, bind_io, write_file, print.
    destruct (open_w w (output_file self)); reflexivity.
  - repeat split.
    + apply csv_read_content.
    + intros cell Hcell. destruct cell; try reflexivity. congruence.
Qed.

Lemma csv_round_trip_witness :
  csv_read (csv_content [[JInt 1; JStr "ATA"; JInt 40000; NA; JStr ("3," ++ dq)]]) =
    [["# Device"; "Type"; "Power-on Hours"; "Temperature"; "Reallocated Sectors"];
     ["1"; "ATA"; "40000"; "N/A"; "3," ++ dq]] /\
  csv_field (JInt 40000) = py_str (JInt 40000).
Proof.
  destruct (csv_round_trip
              (mk_monitor "disk_exs" "report.csv" "error_log.txt")
              (mk_analyzed [] [] [[JInt 1; JStr "ATA"; JInt 40000; NA; JStr ("3," ++ dq)]])
              sample_world)
    as (_ & _ & Hread & Hfield & _ & _).
  split.
  - exact Hread.
  - apply Hfield. discriminate.
Defined.

(** * Further properties *)

(** ** Loader *)

Lemma with_log_same (w : world) : with_log w (error_log w) = w.
Proof. destruct w. reflexivity. Qed.

Lemma load_files_result (dir : string) (names : list string) :
  forall (json_data : list json) (w : world),
    load_files dir names json_data w =
    (Ok (json_data ++ loaded_docs (json_file w) dir names)%list,
     with_log w (error_log w ++ load_errors (json_file w) dir names)%list).
Proof.
  unfold loaded_docs, load_errors, json_names.
  induction names as [| filename rest IH]; intros json_data w.
  - cbn. rewrite !app_nil_r, with_log_same. reflexivity.
  - cbn [load_files filter].
    destruct (endswith filename ".json"); [| apply IH].
    cbn [flat_map].
    destruct (json_file w (path_join dir filename)) as [err | doc] eqn:Hfile.
    + unfold bind_io, logging_error. rewrite IH.
      cbn [json_file error_log with_log path_exists listdir now stdout written app].
      rewrite <- app_assoc. reflexivity.
    + rewrite IH. rewrite <- app_assoc. reflexivity.
Qed.

Lemma loaded_or_logged (files : string -> string + json) (dir : string)
      (names : list string) :
  length (loaded_docs files dir names) + length (load_errors files dir names) =
  length (json_names names).
Proof.
  unfold loaded_docs, load_errors.
  induction (json_names names) as [| filename rest IH]; [reflexivity |].
  cbn [flat_map]. rewrite !length_app.
  destruct (files (path_join dir filename)); cbn [length]; lia.
Qed.

(** X1: over an existing directory that can be listed, the loader
    returns the documents of the entries ending in [.json] that load, in
    listing order, and logs one line for each such entry that does not;
    nothing else of the world changes and no entry with the suffix is
    dropped without a log line. *)
Theorem loader_loads_or_logs :
  forall (self : DiskHealthMonitor) (w : world) (names : list string),
    path_exists w (json_dir self) = true ->
    listdir w (json_dir self) = Ok names ->
    load_json_data self w =
      (Ok (loaded_docs (json_file w) (json_dir self) names),
       with_log w (error_log w ++ load_errors (json_file w) (json_dir self) names)%list) /\
    length (loaded_docs (json_file w) (json_dir self) names) +
    length (load_errors (json_file w) (json_dir self) names) =
      length (json_names names).
Proof.
  intros self w names Hexists Hlist. split.
  - unfold load_json_data. rewrite Hexists. cbn [negb].
    unfold bind_io, lift. rewrite Hlist.
    rewrite load_files_result. reflexivity.
  - apply loaded_or_logged.
Qed.

Lemma loader_loads_or_logs_witness :
  load_json_data (mk_monitor "disk_exs" "report.csv" "error_log.txt") mixed_world =
    (Ok [sample_nvme],
     with_log mixed_world
       ["Error reading JSON file disk_exs/b.json: Expecting value: line 1 column 1 (char 0)"]).
Proof.
  destruct (loader_loads_or_logs
              (mk_monitor "disk_exs" "report.csv" "error_log.txt") mixed_world
              ["a.json"; "notes.txt"; "b.json"; "c.JSON"] eq_refl eq_refl)
    as [Hload _].
  exact Hload.
Defined.

(** ** Extraction: when it returns and how it fails *)

Lemma scan_ok_readable (table : list json) (v : json) :
  scan_reallocated table = Ok v -> forallb entry_ok (up_to_match table) = true.
Proof.
  induction table as [| sect rest IH]; [reflexivity |].
  cbn [scan_reallocated up_to_match]. intros H. bind_inv H.
  apply getitem_ok in Ha. destruct Ha as (entry & -> & Hname).
  unfold named_reallocated. rewrite Hname.
  destruct (eq_str a "Reallocated_Sector_Ct") eqn:Heq.
  - apply getitem_ok in H. destruct H as (entry' & Hentry & Hvalue).
    injection Hentry as <-.
    cbn [forallb entry_ok]. rewrite Hname, Heq, Hvalue. reflexivity.
  - cbn [forallb entry_ok]. rewrite Hname, Heq. cbn [andb]. auto.
Qed.

(** X2: the scan stops at the first entry named
    [Reallocated_Sector_Ct]: whatever follows that entry, well formed
    or not, changes neither the value found nor an exception raised. *)
Theorem scan_ignores_entries_after_match :
  forall (before : list json) (sect : json) (after : list json),
    named_reallocated sect = true ->
    scan_reallocated (before ++ sect :: after)%list =
    scan_reallocated (before ++ [sect])%list.
Proof.
  intros before sect after Hnamed.
  induction before as [| first rest IH].
  - cbn [app scan_reallocated].
    destruct sect as [| | | | | | entry]; try discriminate Hnamed.
    cbn [named_reallocated] in Hnamed. cbn [py_getitem].
    destruct (dict_lookup "name" entry) as [name |]; [| discriminate Hnamed].
    cbn [bind]. rewrite Hnamed. reflexivity.
  - cbn [app scan_reallocated].
    destruct (py_getitem first "name") as [name | e]; [| reflexivity].
    cbn [bind]. destruct (eq_str name "Reallocated_Sector_Ct"); [reflexivity | exact IH].
Qed.

Lemma scan_ignores_entries_after_match_witness :
  scan_reallocated
    ([JDict [("name", JStr "Raw_Read_Error_Rate")]]
       ++ JDict [("name", JStr "Reallocated_Sector_Ct"); ("value", JInt 3)]
       :: [JNull; JDict []])%list
  = scan_reallocated
      ([JDict [("name", JStr "Raw_Read_Error_Rate")]]
         ++ [JDict [("name", JStr "Reallocated_Sector_Ct"); ("value", JInt 3)]])%list.
Proof.
  apply (scan_ignores_entries_after_match
           [JDict [("name", JStr "Raw_Read_Error_Rate")]]
           (JDict [("name", JStr "Reallocated_Sector_Ct"); ("value", JInt 3)])
           [JNull; JDict []]).
  reflexivity.
Defined.

(** X3: ATA extraction returns a row exactly when the power-on-time and
    temperature blocks are mappings, the attribute block has a ["table"]
    that can be iterated, and every entry the scan visits is a mapping
    with a ["name"] (and a ["value"], for the entry looked for); in every
    other case it raises. *)
Theorem extract_ata_returns_iff :
  forall (data : json) (index : Z),
    (exists row, extract_ata_data data index = Ok row) <->
    (exists pot tmp attrs table sects,
        py_getitem data "power_on_time" = Ok (JDict pot) /\
        py_getitem data "temperature" = Ok (JDict tmp) /\
        py_getitem data "ata_smart_attributes" = Ok attrs /\
        py_getitem attrs "table" = Ok table /\
        py_iter table = Ok sects /\
        forallb entry_ok (up_to_match sects) = true).
Proof.
  intros data index. split.
  - intros [row H]. apply extract_ata_inv in H.
    destruct H as (pot & tmp & attrs & table & sects & v
                   & Hp & Ht & Ha & Htab & Hiter & Hscan & _).
    exists pot, tmp, attrs, table, sects.
    repeat split; try assumption.
    exact (scan_ok_readable sects v Hscan).
  - intros (pot & tmp & attrs & table & sects & Hp & Ht & Ha & Htab & Hiter & Hok).
    destruct (scan_returns sects Hok) as [v Hv].
    exists [JInt index; JStr "ATA"; field_or_NA "hours" pot;
            field_or_NA "current" tmp; v].
    unfold extract_ata_data.
    rewrite Hp; cbn [bind py_get]. rewrite Ht; cbn [bind py_get].
    rewrite Ha; cbn [bind]. rewrite Htab; cbn [bind].
    rewrite Hiter; cbn [bind]. rewrite Hv. reflexivity.
Qed.

(** X4: NVMe extraction on a mapping that has the health-information
    key returns a row when the block under the key is a mapping and
    raises [AttributeError] when it is anything else (a number, a list,
    [null]); on a document that is not a mapping both extractions raise
    [TypeError]. *)
Theorem extraction_error_kinds :
  forall (data : json) (index : Z),
    (forall block health,
       data = JDict block ->
       dict_lookup "nvme_smart_health_information" block = Some health ->
       if is_mapping health
       then exists row, extract_nvme_data data index = Ok row
       else extract_nvme_data data index = Raise AttributeError) /\
    (is_mapping data = false ->
     extract_ata_data data index = Raise TypeError /\
     extract_nvme_data data index = Raise TypeError).
Proof.
  intros data index. split.
  - intros block health -> Hlookup.
    unfold extract_nvme_data. cbn [py_getitem]. rewrite Hlookup. cbn [bind].
    destruct health; cbn [is_mapping]; try reflexivity.
    eexists. reflexivity.
  - intros Hdata. destruct data; try discriminate Hdata; split; reflexivity.
Qed.

Lemma extraction_error_kinds_witness :
  extract_nvme_data (JDict [("nvme_smart_health_information", JNull)]) 1
    = Raise AttributeError /\
  extract_ata_data (JList [JStr "ata_smart_attributes"]) 1 = Raise TypeError.
Proof.
  split.
  - destruct (extraction_error_kinds
                (JDict [("nvme_smart_health_information", JNull)]) 1) as [Hblock _].
    exact (Hblock [("nvme_smart_health_information", JNull)] JNull eq_refl eq_refl).
  - destruct (extraction_error_kinds (JList [JStr "ata_smart_attributes"]) 1)
      as [_ Hdoc].
    destruct (Hdoc eq_refl) as [Hata _]. exact Hata.
Defined.

Lemma extract_ata_returns_iff_witness :
  exists row, extract_ata_data sample_ata 1 = Ok row.
Proof.
  apply (proj2 (extract_ata_returns_iff sample_ata 1)).
  exists [("hours", JInt 40000)], [("current", JInt 55)],
         (JDict [("table", JList sample_table)]), (JList sample_table), sample_table.
  repeat split.
Defined.

(** ** Aggregation: composition, views, documents that are not mappings *)

Lemma analyze_loop_app (first : list json) :
  forall (rest : list json) (idx : Z) (acc : analyzed),
    analyze_loop idx (first ++ rest)%list acc =
    bind (analyze_loop idx first acc)
         (fun acc' => analyze_loop (idx + Z.of_nat (length first)) rest acc').
Proof.
  induction first as [| data first IH]; intros rest idx acc.
  - cbn [app analyze_loop bind length Z.of_nat]. rewrite Z.add_0_r. reflexivity.
  - cbn [app analyze_loop length].
    replace (idx + Z.of_nat (S (length first)))%Z
      with (idx + 1 + Z.of_nat (length first))%Z by lia.
    destruct (py_contains "ata_smart_attributes" data) as [[|] | e];
      cbn [bind]; [| | reflexivity].
    + destruct (extract_ata_data data idx) as [row | e]; cbn [bind];
        [apply IH | reflexivity].
    + destruct (py_contains "nvme_smart_health_information" data) as [[|] | e];
        cbn [bind]; [| apply IH | reflexivity].
      destruct (extract_nvme_data data idx) as [row | e]; cbn [bind];
        [apply IH | reflexivity].
Qed.

(** X5: aggregating a sequence of records is aggregating its first part
    and then, from the views so far and the next sequence number, the
    rest; an exception in the first part is the result. *)
Theorem aggregation_composes :
  forall (first rest : list json),
    analyze_data (first ++ rest)%list =
    bind (analyze_data first)
         (fun acc => analyze_loop (1 + Z.of_nat (length first)) rest acc).
Proof.
  intros first rest. unfold analyze_data. apply analyze_loop_app.
Qed.

Lemma analyze_data_app_ok (before rest : list json) (acc : analyzed) :
  analyze_data before = Ok acc ->
  analyze_data (before ++ rest)%list =
  analyze_loop (1 + Z.of_nat (length before)) rest acc.
Proof.
  unfold analyze_data. intros H. rewrite analyze_loop_app, H. reflexivity.
Qed.

Lemma analyze_loop_raises (data : json) (rest : list json) (idx : Z)
      (acc : analyzed) (e : exn) :
  analyze_loop idx [data] acc = Raise e ->
  analyze_loop idx (data :: rest) acc = Raise e.
Proof.
  change (data :: rest) with ([data] ++ rest)%list.
  rewrite analyze_loop_app. intros ->. reflexivity.
Qed.

(** X6: a loaded document that is not a mapping is not always skipped.
    A number, a boolean or [null] makes the family test itself raise
    [TypeError]; a list or string in which a family key is found is
    classified and then makes extraction raise [TypeError]; either way
    the whole aggregation raises, whatever the other records are.  Only
    a list or string without the keys is skipped like an unknown
    mapping. *)
Theorem non_mapping_document_aborts :
  forall (before after : list json) (data : json) (acc : analyzed),
    analyze_data before = Ok acc ->
    is_mapping data = false ->
    (skipped data = false ->
     analyze_data (before ++ data :: after)%list = Raise TypeError) /\
    (skipped data = true ->
     analyze_data (before ++ data :: after)%list =
     analyze_loop (1 + Z.of_nat (length before) + 1) after acc).
Proof.
  intros before after data acc Hbefore Hdata.
  rewrite (analyze_data_app_ok before (data :: after) acc Hbefore).
  split; intros Hskip.
  - apply analyze_loop_raises.
    unfold skipped in Hskip. cbn [analyze_loop].
    destruct data as [| b | n | text | s | items | block];
      try discriminate Hdata; try reflexivity.
    + cbn [py_contains] in *.
      destruct (is_substring "ata_smart_attributes" s); [reflexivity |].
      cbn [bind].
      destruct (is_substring "nvme_smart_health_information" s);
        [reflexivity | discriminate Hskip].
    + cbn [py_contains] in *.
      destruct (existsb (fun x => eq_str x "ata_smart_attributes") items);
        [reflexivity |].
      cbn [bind].
      destruct (existsb (fun x => eq_str x "nvme_smart_health_information") items);
        [reflexivity | discriminate Hskip].
  - unfold skipped in Hskip. cbn [analyze_loop].
    destruct (py_contains "ata_smart_attributes" data) as [[|] | e];
      try discriminate Hskip.
    destruct (py_contains "nvme_smart_health_information" data) as [[|] | e];
      try discriminate Hskip.
    reflexivity.
Qed.

Lemma non_mapping_document_aborts_witness :
  analyze_data ([sample_nvme] ++ JInt 42 :: [sample_ata])%list = Raise TypeError /\
  analyze_data ([sample_nvme] ++ JList [] :: [sample_ata])%list =
    analyze_loop 3 [sample_ata]
      (mk_analyzed [] [[JStr "NVMe"; JInt 100; JInt 30; NA]]
                   [[JInt 1; JStr "NVMe"; JInt 100; JInt 30; NA]]).
Proof.
  split.
  - destruct (non_mapping_document_aborts [sample_nvme] [sample_ata] (JInt 42)
                (mk_analyzed [] [[JStr "NVMe"; JInt 100; JInt 30; NA]]
                             [[JInt 1; JStr "NVMe"; JInt 100; JInt 30; NA]])
                eq_refl eq_refl) as [Hraise _].
    apply Hraise. reflexivity.
  - destruct (non_mapping_document_aborts [sample_nvme] [sample_ata] (JList [])
                (mk_analyzed [] [[JStr "NVMe"; JInt 100; JInt 30; NA]]
                             [[JInt 1; JStr "NVMe"; JInt 100; JInt 30; NA]])
                eq_refl eq_refl) as [_ Hskip].
    apply Hskip. reflexivity.
Defined.

Lemma analyze_loop_views (json_data : list json) :
  forall (idx : Z) (acc r : analyzed),
    analyze_loop idx json_data acc = Ok r -> views_agree acc -> views_agree r.
Proof.
  induction json_data as [| data rest IH]; intros idx acc r H Hacc.
  - cbn in H. injection H as <-. exact Hacc.
  - destruct Hacc as (Hfive & Hata & Hnvme & Hlen).
    cbn [analyze_loop] in H. bind_inv H. destruct a.
    + bind_inv H. apply extract_ata_inv in Ha0.
      destruct Ha0 as (pot & tmp & attrs & table & sects & v & _ & _ & _ & _ & _ & _ & ->).
      apply IH in H; [exact H |].
      unfold views_agree. cbn [all_data ata_data nvme_data tl].
      rewrite !filter_app, !map_app, !length_app, Forall_app.
      cbn. rewrite app_nil_r, <- Hata, <- Hnvme.
      repeat split; try assumption; try lia.
      constructor; [reflexivity | constructor].
    + bind_inv H. destruct a.
      * bind_inv H. apply extract_nvme_inv in Ha1.
        destruct Ha1 as (health & _ & ->).
        apply IH in H; [exact H |].
        unfold views_agree. cbn [all_data ata_data nvme_data tl].
        rewrite !filter_app, !map_app, !length_app, Forall_app.
        cbn. rewrite app_nil_r, <- Hata, <- Hnvme.
        repeat split; try assumption; try lia.
        constructor; [reflexivity | constructor].
      * apply IH in H; [exact H |].
        repeat split; assumption.
Qed.

(** X7: whenever aggregation returns, the three views agree: every row
    of the full view has five cells, the ATA view is the rows of the full
    view whose family cell is ["ATA"], in the same order and without the
    sequence number, likewise the NVMe view, and every row of the full
    view is in exactly one of the two. *)
Theorem views_are_projections :
  forall (json_data : list json) (r : analyzed),
    analyze_data json_data = Ok r ->
    Forall (fun row => length row = 5) (all_data r) /\
    ata_data r = map (@tl json) (filter (is_family "ATA") (all_data r)) /\
    nvme_data r = map (@tl json) (filter (is_family "NVMe") (all_data r)) /\
    length (all_data r) = length (ata_data r) + length (nvme_data r).
Proof.
  intros json_data r H. unfold analyze_data in H.
  apply analyze_loop_views in H; [exact H |].
  repeat split. constructor.
Qed.

Lemma views_are_projections_witness :
  Forall (fun row => length row = 5)
         [[JInt 1; JStr "NVMe"; JInt 100; JInt 30; NA];
          [JInt 2; JStr "ATA"; JInt 40000; JInt 55; JInt 3]] /\
  [[JStr "ATA"; JInt 40000; JInt 55; JInt 3]] =
    map (@tl json)
        (filter (is_family "ATA")
                [[JInt 1; JStr "NVMe"; JInt 100; JInt 30; NA];
                 [JInt 2; JStr "ATA"; JInt 40000; JInt 55; JInt 3]]) /\
  [[JStr "NVMe"; JInt 100; JInt 30; NA]] =
    map (@tl json)
        (filter (is_family "NVMe")
                [[JInt 1; JStr "NVMe"; JInt 100; JInt 30; NA];
                 [JInt 2; JStr "ATA"; JInt 40000; JInt 55; JInt 3]]) /\
  2 = 1 + 1.
Proof.
  apply (views_are_projections [sample_nvme; sample_ata]
           (mk_analyzed [[JStr "ATA"; JInt 40000; JInt 55; JInt 3]]
                        [[JStr "NVMe"; JInt 100; JInt 30; NA]]
                        [[JInt 1; JStr "NVMe"; JInt 100; JInt 30; NA];
                         [JInt 2; JStr "ATA"; JInt 40000; JInt 55; JInt 3]])).
  reflexivity.
Defined.

(** ** The run: what it writes and when *)

Lemma load_only_logs (self : DiskHealthMonitor) (w : world) :
  exists entries, snd (load_json_data self w) = with_log w entries.
Proof.
  unfold load_json_data.
  destruct (path_exists w (json_dir self)); cbn [negb].
  - unfold bind_io, lift.
    destruct (listdir w (json_dir self)) as [names | e].
    + rewrite load_files_result. eexists. reflexivity.
    + exists (error_log w). cbn [snd]. rewrite with_log_same. reflexivity.
  - eexists. reflexivity.
Qed.

Lemma analyze_loop_skipped (json_data : list json) :
  forall (idx : Z) (acc : analyzed),
    forallb skipped json_data = true -> analyze_loop idx json_data acc = Ok acc.
Proof.
  induction json_data as [| data rest IH]; intros idx acc H.
  - reflexivity.
  - cbn [forallb] in H. apply andb_prop in H. destruct H as [Hdata Hrest].
    cbn [analyze_loop]. unfold skipped in Hdata.
    destruct (py_contains "ata_smart_attributes" data) as [[|] | e];
      try discriminate Hdata.
    destruct (py_contains "nvme_smart_health_information" data) as [[|] | e];
      try discriminate Hdata.
    cbn [bind]. apply IH. exact Hrest.
Qed.

Lemma csv_content_nil :
  csv_content [] =
  "# Device,Type,Power-on Hours,Temperature,Reallocated Sectors" ++ cr ++ nl.
Proof. reflexivity. Qed.

Lemma html_content_empty (timestamp : string) :
  html_content timestamp (mk_analyzed [] [] []) = empty_report timestamp.
Proof. reflexivity. Qed.

Lemma display_report_prints (r : analyzed) (w : world) :
  display_report r w =
  (Ok tt, with_output w (stdout w ++ display_items r)%list (written w)).
Proof.
  unfold display_report, bind_io, print, with_output, display_items.
  destruct (ata_data r) as [| arow arows]; destruct (nvme_data r) as [| nrow nrows];
    cbn [path_exists listdir json_file open_w now error_log stdout written];
    rewrite <- !app_assoc; reflexivity.
Qed.

(** The three presenters one after the other: the first [open] that fails
    ends the run with its exception. *)
Lemma present_all (self : DiskHealthMonitor) (r : analyzed) (w : world) :
  bind_io (display_report r)
    (fun _ => bind_io (save_report self r)
       (fun _ => bind_io (generate_html_report r "report.html")
          (fun _ => ret true))) w =
  match open_w w (output_file self) with
  | Raise e => (Raise e, with_output w (stdout w ++ display_items r)%list (written w))
  | Ok _ =>
      match open_w w "report.html" with
      | Raise e =>
          (Raise e,
           with_output w
             (stdout w ++ display_items r
                ++ [Line ("Report saved to " ++ output_file self ++ "!")])%list
             (written w ++ [(output_file self, csv_content (all_data r))])%list)
      | Ok _ =>
          (Ok true,
           with_output w
             (stdout w ++ display_items r
                ++ [Line ("Report saved to " ++ output_file self ++ "!");
                    Line "HTML report saved to report.html!"])%list
             (written w ++ [(output_file self, csv_content (all_data r));
                            ("report.html", html_content (now w) r)])%list)
      end
  end.
Proof.
  unfold bind_io at 1. rewrite display_report_prints.
  unfold save_report, generate_html_report, bind_io, print, write_file, ret,
    with_output.
  cbn [path_exists listdir json_file open_w now error_log stdout written].
  destruct (open_w w (output_file self)) as [u | e]; [| reflexivity].
  cbn [path_exists listdir json_file open_w now error_log stdout written].
  destruct (open_w w "report.html") as [u' | e];
    cbn [path_exists listdir json_file open_w now error_log stdout written];
    rewrite <- !app_assoc; reflexivity.
Qed.

Lemma run_unfold (self : DiskHealthMonitor) (w : world) :
  run self w =
  match load_json_data self w with
  | (Ok [], w') =>
      (Ok false,
       with_output w'
         (stdout w' ++ [Line "No data found. Verify the JSON files directory."])%list
         (written w'))
  | (Ok (data :: docs), w') =>
      match analyze_data (data :: docs) with
      | Ok r =>
          bind_io (display_report r)
            (fun _ => bind_io (save_report self r)
               (fun _ => bind_io (generate_html_report r "report.html")
                  (fun _ => ret true))) w'
      | Raise e => (Raise e, w')
      end
  | (Raise e, w') => (Raise e, w')
  end.
Proof.
  unfold run. unfold bind_io at 1.
  destruct (load_json_data self w) as [[[| data docs] | e] w']; reflexivity.
Qed.

Lemma load_raises (self : DiskHealthMonitor) (w : world) (e : exn) :
  fst (load_json_data self w) = Raise e ->
  path_exists w (json_dir self) = true /\ listdir w (json_dir self) = Raise e.
Proof.
  unfold load_json_data.
  destruct (path_exists w (json_dir self)); cbn [negb].
  - unfold bind_io, lift.
    destruct (listdir w (json_dir self)) as [names | e'].
    + rewrite load_files_result. discriminate.
    + cbn [fst]. intros H. injection H as <-. split; reflexivity.
  - discriminate.
Qed.

Ltac run_cases self w entries :=
  destruct (load_only_logs self w) as [entries ?Hworld];
  rewrite !run_unfold;
  destruct (load_json_data self w) as [[[| ?data ?docs] | ?e] ?w'];
  cbn [fst snd] in *; subst;
  [ | destruct (analyze_data (_ :: _)) as [?r | ?e] eqn:?Hr;
      [ rewrite !present_all;
        cbn [with_log path_exists listdir json_file open_w now error_log stdout
               written];
        destruct (open_w w (output_file self)) as [[] | ?e] eqn:?Hcsv;
        [ destruct (open_w w "report.html") as [[] | ?e] eqn:?Hhtml | ]
      | ]
    | ];
  cbn [fst snd with_output with_log path_exists listdir json_file open_w now
         error_log stdout written].

(** X8: a run writes the CSV report before the HTML report and nothing
    else.  The files it adds are none, or the CSV report alone (the
    output path could be opened but [report.html] could not, and the run
    ends with that exception), or the CSV report and then
    [report.html], both from one aggregation of the loaded documents; it
    returns [True] exactly when it has written both. *)
Theorem run_writes_csv_then_html :
  forall (self : DiskHealthMonitor) (w : world),
    exists files,
      written (snd (run self w)) = (written w ++ files)%list /\
      (fst (run self w) = Ok true <-> length files = 2) /\
      (files = [] \/
       exists docs r,
         fst (load_json_data self w) = Ok docs /\
         analyze_data docs = Ok r /\
         open_w w (output_file self) = Ok tt /\
         ((files = [(output_file self, csv_content (all_data r))] /\
           exists e, open_w w "report.html" = Raise e /\ fst (run self w) = Raise e) \/
          (files = [(output_file self, csv_content (all_data r));
                    ("report.html", html_content (now w) r)] /\
           open_w w "report.html" = Ok tt))).
Proof.
  intros self w. run_cases self w entries.
  - exists []. rewrite app_nil_r.
    split; [reflexivity | split; [split; discriminate | left; reflexivity]].
  - eexists. split; [reflexivity |].
    split; [split; reflexivity |].
    right. eexists. eexists.
    split; [reflexivity | split; [eassumption | split; [reflexivity |]]].
    right. split; reflexivity.
  - eexists. split; [reflexivity |].
    split; [split; discriminate |].
    right. eexists. eexists.
    split; [reflexivity | split; [eassumption | split; [reflexivity |]]].
    left. split; [reflexivity |]. eexists. split; reflexivity.
  - exists []. rewrite app_nil_r.
    split; [reflexivity | split; [split; discriminate | left; reflexivity]].
  - exists []. rewrite app_nil_r.
    split; [reflexivity | split; [split; discriminate | left; reflexivity]].
  - exists []. rewrite app_nil_r.
    split; [reflexivity | split; [split; discriminate | left; reflexivity]].
Qed.

(** X9: documents were loaded but none has a recognized shape, and both
    report paths can be opened: the run still returns [True] and writes
    both reports, a CSV file holding the header line alone and the HTML
    document with the two "No ... devices found" paragraphs, after
    printing the two matching console lines. *)
Theorem run_without_recognized_records :
  forall (self : DiskHealthMonitor) (w : world) (docs : list json),
    fst (load_json_data self w) = Ok docs ->
    docs <> [] ->
    forallb skipped docs = true ->
    open_w w (output_file self) = Ok tt ->
    open_w w "report.html" = Ok tt ->
    fst (run self w) = Ok true /\
    written (snd (run self w)) =
      (written w ++
       [(output_file self,
         ("# Device,Type,Power-on Hours,Temperature,Reallocated Sectors" ++ cr ++ nl)%string);
        ("report.html", empty_report (now w))])%list /\
    stdout (snd (run self w)) =
      (stdout w ++
       [Line (nl ++ "### ATA DEVICES ###"); Line "No ATA devices found.";
        Line (nl ++ "### NVMe DEVICES ###"); Line "No NVMe devices found.";
        Line ("Report saved to " ++ output_file self ++ "!");
        Line "HTML report saved to report.html!"])%list.
Proof.
  intros self w docs Hload Hdocs Hskipped Hcsv Hhtml.
  destruct (load_only_logs self w) as [entries Hworld].
  rewrite run_unfold.
  destruct (load_json_data self w) as [res w']; cbn [fst snd] in *; subst res w'.
  destruct docs as [| data docs]; [congruence |].
  unfold analyze_data.
  rewrite (analyze_loop_skipped (data :: docs) 1 _ Hskipped).
  rewrite present_all.
  cbn [with_log path_exists listdir json_file open_w now error_log stdout written].
  rewrite Hcsv, Hhtml.
  cbn [fst snd with_output with_log path_exists listdir json_file open_w now
         error_log stdout written all_data].
  rewrite csv_content_nil, html_content_empty.
  split; [reflexivity | split; reflexivity].
Qed.

Lemma run_without_recognized_records_witness :
  fst (run (mk_monitor "disk_exs" "report.csv" "error_log.txt") unrecognized_world)
    = Ok true /\
  written (snd (run (mk_monitor "disk_exs" "report.csv" "error_log.txt")
                    unrecognized_world)) =
    [("report.csv",
      ("# Device,Type,Power-on Hours,Temperature,Reallocated Sectors" ++ cr ++ nl)%string);
     ("report.html", empty_report "01/01/2025 12:00:00")].
Proof.
  destruct (run_without_recognized_records
              (mk_monitor "disk_exs" "report.csv" "error_log.txt")
              unrecognized_world
              [JDict [("model_name", JStr "disk")]]
              eq_refl) as (Hrun & Hwritten & _).
  - discriminate.
  - reflexivity.
  - reflexivity.
  - reflexivity.
  - split; [exact Hrun | exact Hwritten].
Defined.

(** X15: the run catches nothing itself; when it ends with an exception,
    the exception and what has been done by then are one of four cases.
    It is the exception of listing the directory (the path exists but
    cannot be listed), or of aggregating the loaded documents, and then
    nothing has been printed or written; or it is the exception of
    opening the CSV path, after the console tables were printed and
    before any file was written; or of opening [report.html], after the
    CSV report was written and its confirmation printed.  A file that
    cannot be read is never the cause. *)
Theorem run_exception_origin :
  forall (self : DiskHealthMonitor) (w : world) (e : exn),
    fst (run self w) = Raise e ->
    (path_exists w (json_dir self) = true /\ listdir w (json_dir self) = Raise e /\
     stdout (snd (run self w)) = stdout w /\
     written (snd (run self w)) = written w) \/
    (exists docs,
        fst (load_json_data self w) = Ok docs /\ analyze_data docs = Raise e /\
        stdout (snd (run self w)) = stdout w /\
        written (snd (run self w)) = written w) \/
    (exists docs r,
        fst (load_json_data self w) = Ok docs /\ analyze_data docs = Ok r /\
        ((open_w w (output_file self) = Raise e /\
          stdout (snd (run self w)) = (stdout w ++ display_items r)%list /\
          written (snd (run self w)) = written w) \/
         (open_w w (output_file self) = Ok tt /\
          open_w w "report.html" = Raise e /\
          stdout (snd (run self w)) =
            (stdout w ++ display_items r
               ++ [Line ("Report saved to " ++ output_file self ++ "!")])%list /\
          written (snd (run self w)) =
            (written w ++ [(output_file self, csv_content (all_data r))])%list))).
Proof.
  intros self w e.
  pose proof (load_raises self w) as Hload.
  run_cases self w entries; intros Hraise;
    try discriminate Hraise; injection Hraise as <-.
  - right. right. eexists. eexists.
    split; [reflexivity | split; [eassumption |]].
    right. repeat split; reflexivity.
  - right. right. eexists. eexists.
    split; [reflexivity | split; [eassumption |]].
    left. repeat split; reflexivity.
  - right. left. eexists.
    split; [reflexivity | split; [eassumption | split; reflexivity]].
  - left. destruct (Hload _ eq_refl) as [Hexists Hlist].
    repeat split; assumption.
Qed.

Lemma run_exception_origin_witness :
  written (snd (run (mk_monitor "disk_exs" "report.csv" "error_log.txt")
                    html_locked_world)) =
    [("report.csv", csv_content [[JInt 1; JStr "NVMe"; JInt 100; JInt 30; NA]])].
Proof.
  destruct (run_exception_origin
              (mk_monitor "disk_exs" "report.csv" "error_log.txt")
              html_locked_world (OSError "report.html") eq_refl)
    as [(_ & Hlist & _) | [(docs & Hdocs & Hraise & _) | (docs & r & Hdocs & Hr & Hcase)]].
  - discriminate Hlist.
  - vm_compute in Hdocs. injection Hdocs as <-. discriminate Hraise.
  - vm_compute in Hdocs. injection Hdocs as <-.
    vm_compute in Hr. injection Hr as <-.
    destruct Hcase as [(Hcsv & _) | (_ & _ & _ & Hwritten)].
    + discriminate Hcsv.
    + exact Hwritten.
Defined.

(** ** Integers as text *)










(** ** HTML cells: the classes exactly *)

Lemma py_int_zero : py_int "0" = Some 0%Z.
Proof. reflexivity. Qed.

Lemma render_cell_class (headers : list string) (i : nat) (cell : json) :
  render_cell headers i cell =
  match cell_class headers i (py_str cell) with
  | Some class => td_class class (py_str cell)
  | None => td (py_str cell)
  end.
Proof.
  unfold render_cell, cell_class.
  destruct (py_int (py_str cell)) as [n |] eqn:Hint.
  - destruct (String.eqb_spec (py_str cell) "N/A") as [Hna | _].
    { rewrite Hna, py_int_NA in Hint. discriminate Hint. }
    cbn [negb]. rewrite !andb_true_r.
    destruct (String.eqb_spec (py_str cell) "0") as [Hzero | _].
    + rewrite Hzero, py_int_zero in Hint. injection Hint as <-.
      cbn [negb]. rewrite andb_false_r.
      change (0 >? 0)%Z with false. change (0 >? 30000)%Z with false.
      change (0 >? 50)%Z with false.
      split_conditions; reflexivity.
    + cbn [negb]. rewrite andb_true_r.
      split_conditions; reflexivity.
  - split_conditions; reflexivity.
Qed.

Lemma cell_class_warning (headers : list string) (i : nat) (cell_str : string) :
  cell_class headers i cell_str = Some "warning" <->
  (i = 3 /\ header_is headers 3 "Reallocated Sectors" = true /\
   exists n, py_int cell_str = Some n /\ (n > 0)%Z) \/
  (i = 1 /\ header_is headers 1 "Power-on Hours" = true /\
   exists n, py_int cell_str = Some n /\ (n > 30000)%Z).
Proof.
  unfold cell_class.
  destruct (py_int cell_str) as [n |].
  2: { split; [discriminate |].
       intros [(_ & _ & m & Hm & _) | (_ & _ & m & Hm & _)]; discriminate Hm. }
  destruct (Nat.eqb_spec i 3) as [-> | Hi3]; cbn [andb Nat.eqb].
  - destruct (header_is headers 3 "Reallocated Sectors").
    + destruct (Z.gtb_spec n 0) as [Hgt | Hle].
      * split; [intros _ | reflexivity].
        left. split; [reflexivity | split; [reflexivity |]].
        exists n. split; [reflexivity | lia].
      * split; [discriminate |].
        intros [(_ & _ & m & Hm & Hgt) | (Habs & _)];
          [injection Hm as <-; lia | discriminate Habs].
    + split; [discriminate |].
      intros [(_ & Habs & _) | (Habs & _)]; discriminate Habs.
  - destruct (Nat.eqb_spec i 1) as [-> | Hi1]; cbn [andb Nat.eqb].
    + destruct (header_is headers 1 "Power-on Hours").
      * destruct (Z.gtb_spec n 30000) as [Hgt | Hle].
        -- split; [intros _ | reflexivity].
           right. split; [reflexivity | split; [reflexivity |]].
           exists n. split; [reflexivity | lia].
        -- split; [discriminate |].
           intros [(Habs & _) | (_ & _ & m & Hm & Hgt)];
             [discriminate Habs | injection Hm as <-; lia].
      * split; [discriminate |].
        intros [(Habs & _) | (_ & Habs & _)]; discriminate Habs.
    + split.
      * destruct (Nat.eqb i 2 && header_is headers i "Temperature");
          [destruct (n >? 50)%Z |]; discriminate.
      * intros [(Habs & _) | (Habs & _)]; congruence.
Qed.

Lemma cell_class_danger (headers : list string) (i : nat) (cell_str : string) :
  cell_class headers i cell_str = Some "danger" <->
  i = 2 /\ header_is headers 2 "Temperature" = true /\
  exists n, py_int cell_str = Some n /\ (n > 50)%Z.
Proof.
  unfold cell_class.
  destruct (py_int cell_str) as [n |].
  2: { split; [discriminate |]. intros (_ & _ & m & Hm & _). discriminate Hm. }
  destruct (Nat.eqb_spec i 2) as [-> | Hi2]; cbn [andb Nat.eqb].
  - destruct (header_is headers 2 "Temperature").
    + destruct (Z.gtb_spec n 50) as [Hgt | Hle].
      * split; [intros _ | reflexivity].
        split; [reflexivity | split; [reflexivity |]].
        exists n. split; [reflexivity | lia].
      * split; [discriminate |].
        intros (_ & _ & m & Hm & Hgt). injection Hm as <-. lia.
    + split; [discriminate |]. intros (_ & Habs & _). discriminate Habs.
  - split.
    + destruct (Nat.eqb i 3 && header_is headers i "Reallocated Sectors");
        [destruct (n >? 0)%Z; discriminate |].
      destruct (Nat.eqb i 1 && header_is headers i "Power-on Hours");
        [destruct (n >? 30000)%Z; discriminate | discriminate].
    + intros (Habs & _). congruence.
Qed.

Lemma cell_class_values (headers : list string) (i : nat) (cell_str : string) :
  cell_class headers i cell_str = None \/
  cell_class headers i cell_str = Some "warning" \/
  cell_class headers i cell_str = Some "danger".
Proof.
  unfold cell_class.
  destruct (py_int cell_str) as [n |]; [| left; reflexivity].
  destruct (Nat.eqb i 3 && header_is headers i "Reallocated Sectors");
    [destruct (n >? 0)%Z; auto |].
  destruct (Nat.eqb i 1 && header_is headers i "Power-on Hours");
    [destruct (n >? 30000)%Z; auto |].
  destruct (Nat.eqb i 2 && header_is headers i "Temperature");
    [destruct (n >? 50)%Z; auto | auto].
Qed.

Lemma render_cell_classed (headers : list string) (i : nat) (cell : json) :
  render_cell headers i cell = classed (cell_class headers i (py_str cell)) (py_str cell).
Proof. unfold classed. apply render_cell_class. Qed.

Lemma append_cancel_l (a x y : string) : a ++ x = a ++ y -> x = y.
Proof.
  induction a as [| c a IH]; cbn [append]; intros H.
  - exact H.
  - injection H as H. auto.
Qed.

(** Two markups of one cell with different classes differ, whatever
    follows them. *)
Lemma classed_in_context (class1 class2 : option string) (cell_str rest : string) :
  (class1 = None \/ class1 = Some "warning" \/ class1 = Some "danger") ->
  (class2 = None \/ class2 = Some "warning" \/ class2 = Some "danger") ->
  classed class1 cell_str ++ rest = classed class2 cell_str ++ rest ->
  class1 = class2.
Proof.
  unfold classed, td, td_class.
  intros [-> | [-> | ->]] [-> | [-> | ->]]; cbn [append dq];
    intros H; try reflexivity; discriminate H.
Qed.

Lemma table_with_class (headers : list string) (rows_before : list (list json))
      (cells_before : list json) (cell : json) (cells_after : list json)
      (rows_after : list (list json)) (class : option string) :
  length cells_before < length headers ->
  class = None \/ class = Some "warning" \/ class = Some "danger" ->
  (_generate_html_table
     (rows_before ++ (cells_before ++ cell :: cells_after) :: rows_after)%list headers =
   table_with headers rows_before cells_before (classed class (py_str cell))
              cells_after rows_after
   <-> cell_class headers (length cells_before) (py_str cell) = class).
Proof.
  intros Hi Hclass.
  rewrite (table_cell_frame headers rows_before cells_before cell cells_after
             rows_after Hi).
  rewrite render_cell_classed. unfold table_with. split.
  - intros H. apply append_cancel_l in H.
    apply (classed_in_context _ _ _ _ (cell_class_values _ _ _) Hclass H).
  - intros ->. reflexivity.
Qed.

(** X10: the classes in a generated table are given by thresholds
    alone.  At the place of a cell that has a header, the text of the
    table carries the [warning] class exactly when the cell is in column
    3 under the header [Reallocated Sectors] and its text is an integer
    above 0, or in column 1 under [Power-on Hours] with an integer above
    30000; the [danger] class exactly when it is in column 2 under
    [Temperature] with an integer above 50; the tests against ["N/A"]
    and ["0"] in the code change nothing. *)
Theorem html_classes_exactly :
  forall (headers : list string) (rows_before : list (list json))
         (cells_before : list json) (cell : json) (cells_after : list json)
         (rows_after : list (list json)),
    length cells_before < length headers ->
    (_generate_html_table
       (rows_before ++ (cells_before ++ cell :: cells_after) :: rows_after)%list headers =
     table_with headers rows_before cells_before
                (td_class "warning" (py_str cell)) cells_after rows_after
     <->
     (length cells_before = 3 /\
      header_is headers 3 "Reallocated Sectors" = true /\
      exists n, py_int (py_str cell) = Some n /\ (n > 0)%Z) \/
     (length cells_before = 1 /\
      header_is headers 1 "Power-on Hours" = true /\
      exists n, py_int (py_str cell) = Some n /\ (n > 30000)%Z)) /\
    (_generate_html_table
       (rows_before ++ (cells_before ++ cell :: cells_after) :: rows_after)%list headers =
     table_with headers rows_before cells_before
                (td_class "danger" (py_str cell)) cells_after rows_after
     <->
     length cells_before = 2 /\
     header_is headers 2 "Temperature" = true /\
     exists n, py_int (py_str cell) = Some n /\ (n > 50)%Z).
Proof.
  intros headers rows_before cells_before cell cells_after rows_after Hi.
  rewrite <- cell_class_warning, <- cell_class_danger.
  split.
  - apply (table_with_class headers rows_before cells_before cell cells_after
             rows_after (Some "warning") Hi).
    right. left. reflexivity.
  - apply (table_with_class headers rows_before cells_before cell cells_after
             rows_after (Some "danger") Hi).
    right. right. reflexivity.
Qed.

Lemma html_classes_exactly_witness :
  _generate_html_table
    ([] ++ ([JStr "ATA"; JInt 100; JInt 30] ++ JStr "007" :: []) :: [])%list ata_headers =
  table_with ata_headers [] [JStr "ATA"; JInt 100; JInt 30]
             (td_class "warning" "007") [] [].
Proof.
  destruct (html_classes_exactly ata_headers [] [JStr "ATA"; JInt 100; JInt 30]
              (JStr "007") [] []) as [Hwarning _]; [cbn; lia |].
  apply (proj2 Hwarning).
  left. split; [reflexivity | split; [reflexivity |]].
  exists 7%Z. split; [reflexivity | lia].
Defined.




(** ** CSV lines and the sequence column *)

Lemma read_one_record (texts : list string) :
  read_from start (write_record texts) = [texts].
Proof.
  rewrite <- (append_nil_r (write_record texts)).
  rewrite read_record. reflexivity.
Qed.

(** X12: two rows are written as the same CSV line exactly when their
    cells have the same field texts, cell by cell: quoting keeps apart
    rows that differ in a comma, a quote or a line break inside a field,
    while an integer and the string of its digits, or [null] and the
    empty string, are written alike. *)
Theorem csv_line_determines_fields :
  forall row1 row2 : list json,
    writerow row1 = writerow row2 <-> map csv_field row1 = map csv_field row2.
Proof.
  intros row1 row2. unfold writerow. split.
  - intros H. apply (f_equal (read_from start)) in H.
    rewrite !read_one_record in H. injection H as H. exact H.
  - intros ->. reflexivity.
Qed.

Lemma csv_line_determines_fields_witness :
  writerow [JInt 5; JNull] = writerow [JStr "5"; JStr EmptyString].
Proof.
  apply (proj2 (csv_line_determines_fields [JInt 5; JNull] [JStr "5"; JStr EmptyString])).
  reflexivity.
Defined.

Lemma first_field_of_row (row : list json) :
  hd EmptyString (map csv_field row) = csv_field (sequence_number row).
Proof. destruct row; reflexivity. Qed.

(** X13: the first column of the CSV file is the load position of each
    recognized record.  Reading the written file back, the first fields
    of the data rows are the decimal texts of the 1-based positions of
    the recognized records, in load order, and there is one data row per
    recognized record. *)
Theorem csv_first_column_is_load_position :
  forall (json_data : list json) (r : analyzed),
    analyze_data json_data = Ok r ->
    map (hd EmptyString) (tl (csv_read (csv_content (all_data r)))) =
      map str_of_Z (positions_from 1 json_data) /\
    length (csv_read (csv_content (all_data r))) =
      S (length (positions_from 1 json_data)).
Proof.
  intros json_data r H. unfold analyze_data in H.
  apply analyze_loop_sequence in H. cbn [all_data map app] in H.
  rewrite csv_read_content. cbn [tl length map].
  split.
  - rewrite map_map.
    rewrite (map_ext _ _ first_field_of_row).
    rewrite <- (map_map sequence_number csv_field), H, map_map.
    reflexivity.
  - rewrite length_map.
    rewrite <- (length_map sequence_number (all_data r)), H, length_map.
    reflexivity.
Qed.

Lemma csv_first_column_is_load_position_witness :
  map (hd EmptyString)
      (tl (csv_read (csv_content [[JInt 2; JStr "NVMe"; JInt 100; JInt 30; NA]]))) =
    map str_of_Z (positions_from 1 [JDict []; sample_nvme]).
Proof.
  apply (csv_first_column_is_load_position [JDict []; sample_nvme]
           (mk_analyzed [] [[JStr "NVMe"; JInt 100; JInt 30; NA]]
                        [[JInt 2; JStr "NVMe"; JInt 100; JInt 30; NA]])).
  reflexivity.
Defined.

(** ** Sizes of the views *)

Lemma analyze_loop_sizes (json_data : list json) :
  forall (idx : Z) (acc r : analyzed),
    analyze_loop idx json_data acc = Ok r ->
    length (ata_data r) =
      length (ata_data acc) +
      length (filter (has_key "ata_smart_attributes") json_data) /\
    length (nvme_data r) =
      length (nvme_data acc) +
      length (filter (fun data =>
                        negb (has_key "ata_smart_attributes" data) &&
                        has_key "nvme_smart_health_information" data) json_data).
Proof.
  induction json_data as [| data rest IH]; intros idx acc r H.
  - cbn in H. injection H as <-. cbn. lia.
  - cbn [analyze_loop] in H. cbn [filter]. bind_inv H.
    assert (Hata : has_key "ata_smart_attributes" data = a)
      by (unfold has_key; rewrite Ha; reflexivity).
    rewrite Hata. destruct a.
    + bind_inv H. apply IH in H. cbn [ata_data nvme_data] in H.
      rewrite length_app in H. cbn [negb andb length] in *. lia.
    + bind_inv H.
      assert (Hnvme : has_key "nvme_smart_health_information" data = a)
        by (unfold has_key; rewrite Ha0; reflexivity).
      rewrite Hnvme. destruct a.
      * bind_inv H. apply IH in H. cbn [ata_data nvme_data] in H.
        rewrite length_app in H. cbn [negb andb length] in *. lia.
      * apply IH in H. cbn [negb andb]. exact H.
Qed.

(** X14: the first matching family wins, and it wins once.  Whenever
    aggregation returns, the ATA view has one row per record in which the
    ATA key is found, and the NVMe view one row per record in which the
    NVMe key is found and the ATA key is not: a record with both keys is
    an ATA row only. *)
Theorem view_sizes :
  forall (json_data : list json) (r : analyzed),
    analyze_data json_data = Ok r ->
    length (ata_data r) =
      length (filter (has_key "ata_smart_attributes") json_data) /\
    length (nvme_data r) =
      length (filter (fun data =>
                        negb (has_key "ata_smart_attributes" data) &&
                        has_key "nvme_smart_health_information" data) json_data).
Proof.
  intros json_data r H. unfold analyze_data in H.
  apply analyze_loop_sizes in H. exact H.
Qed.

Lemma view_sizes_witness :
  1 = length (filter (has_key "ata_smart_attributes")
                     [JDict [("power_on_time", JDict []); ("temperature", JDict []);
                             ("ata_smart_attributes", JDict [("table", JList [])]);
                             ("nvme_smart_health_information", JDict [])]]) /\
  0 = length (filter (fun data =>
                        negb (has_key "ata_smart_attributes" data) &&
                        has_key "nvme_smart_health_information" data)
                     [JDict [("power_on_time", JDict []); ("temperature", JDict []);
                             ("ata_smart_attributes", JDict [("table", JList [])]);
                             ("nvme_smart_health_information", JDict [])]]).
Proof.
  apply (view_sizes
           [JDict [("power_on_time", JDict []); ("temperature", JDict []);
                   ("ata_smart_attributes", JDict [("table", JList [])]);
                   ("nvme_smart_health_information", JDict [])]]
           (mk_analyzed [[JStr "ATA"; NA; NA; NA]] []
                        [[JInt 1; JStr "ATA"; NA; NA; NA]])).
  reflexivity.
Defined.
